(** * Outpainting request wrapper (app.py): shallow embedding and properties

    The program is a thin synchronous wrapper around one remote
    image-generation call: [prepare_outpainting_request_with_mask_prompt]
    reads the source image, builds the JSON payload and delegates to
    [generate_image], which performs the call and decodes the first image of
    the response; [main] is the form handler that validates the upload.

    Python values are modelled as follows:
    - [bytes] is a list of [byte];
    - [str] is a list of Unicode code points ([N]);
    - [int] is [Z]; [float] is a binary64 value, given by its sign, mantissa
      and exponent;
    - a parsed JSON document is the inductive [json];
    - raising is the [Raise] outcome of a state-and-exception monad over the
      [World] (file system, log, calls sent to the service, user interface,
      clock). *)

From Stdlib Require Import ZArith NArith List Strings.Byte String Ascii Lia.
From Stdlib Require Import SpecFloat DecimalString DecimalPos DecimalZ.
From stdpp Require Import base option list gmap.

Set Warnings "-register-all".
Local Open Scope N_scope.

(** ** Bytes and strings *)

Abbreviation bytes := (list byte).
Abbreviation str := (list N).

(** A string literal of the source, as code points. *)
Definition lit (s : string) : str := map Byte.to_N (list_byte_of_string s).
Arguments lit : simpl never.

(** Storing a value into an [unsigned char]: the low eight bits. *)
Definition byte_of_N (n : N) : byte :=
  match Byte.of_N (n mod 256) with
  | Some b => b
  | None => x00
  end.

(** [str(i)] for an [int]. *)
Definition str_of_int (i : Z) : str :=
  lit (NilZero.string_of_int (Z.to_int i)).

(** [s.encode("ascii")]: fails on any code point above 127. *)
Fixpoint encode_ascii (s : str) : option bytes :=
  match s with
  | [] => Some []
  | c :: s' =>
      if c <? 128
      then match Byte.of_N c, encode_ascii s' with
           | Some b, Some r => Some (b :: r)
           | _, _ => None
           end
      else None
  end.

Definition is_continuation (n : N) : bool := (0x80 <=? n) && (n <=? 0xBF).

(** [b.decode("utf8")], strict: shortest forms only, no surrogates, nothing
    above U+10FFFF. *)
Fixpoint decode_utf8 (b : bytes) : option str :=
  match b with
  | [] => Some []
  | b0 :: r0 =>
      let n0 := Byte.to_N b0 in
      if n0 <? 0x80 then cons n0 <$> decode_utf8 r0
      else
        match r0 with
        | [] => None
        | b1 :: r1 =>
            let n1 := Byte.to_N b1 in
            if (0xC2 <=? n0) && (n0 <=? 0xDF) && is_continuation n1
            then cons (N.lor (N.shiftl (N.land n0 0x1F) 6) (N.land n1 0x3F))
                   <$> decode_utf8 r1
            else
              match r1 with
              | [] => None
              | b2 :: r2 =>
                  let n2 := Byte.to_N b2 in
                  if (0xE0 <=? n0) && (n0 <=? 0xEF) && is_continuation n1
                     && is_continuation n2
                     && (negb (n0 =? 0xE0) || (0xA0 <=? n1))
                     && (negb (n0 =? 0xED) || (n1 <=? 0x9F))
                  then cons (N.lor (N.shiftl (N.land n0 0x0F) 12)
                               (N.lor (N.shiftl (N.land n1 0x3F) 6)
                                  (N.land n2 0x3F)))
                         <$> decode_utf8 r2
                  else
                    match r2 with
                    | [] => None
                    | b3 :: r3 =>
                        let n3 := Byte.to_N b3 in
                        if (0xF0 <=? n0) && (n0 <=? 0xF4)
                           && is_continuation n1 && is_continuation n2
                           && is_continuation n3
                           && (negb (n0 =? 0xF0) || (0x90 <=? n1))
                           && (negb (n0 =? 0xF4) || (n1 <=? 0x8F))
                        then cons (N.lor (N.shiftl (N.land n0 0x07) 18)
                                     (N.lor (N.shiftl (N.land n1 0x3F) 12)
                                        (N.lor (N.shiftl (N.land n2 0x3F) 6)
                                           (N.land n3 0x3F))))
                               <$> decode_utf8 r3
                        else None
                    end
              end
        end
  end.

(** ** The base64 module

    [b64encode] and [b64decode] as the program calls them: the standard
    alphabet, [=] padding, no line breaks, and a decoder that is not in
    validating mode, so that it skips every character outside the alphabet. *)

Module base64.

Definition table_b2a_base64 : bytes :=
  list_byte_of_string
    "ABCDEFGHIJKLMNOPQRSTUVWXYZabcdefghijklmnopqrstuvwxyz0123456789+/".

Definition BASE64_PAD : byte := "="%byte.

(** The character of a six-bit group. *)
Definition b2a (sextet : N) : byte :=
  nth (N.to_nat sextet) table_b2a_base64 BASE64_PAD.

Fixpoint index_of (c : byte) (table : bytes) (i : N) : option N :=
  match table with
  | [] => None
  | t :: table' => if Byte.eqb c t then Some i else index_of c table' (i + 1)
  end.

(** The six-bit group of a character, when it is in the alphabet. *)
Definition a2b (c : byte) : option N := index_of c table_b2a_base64 0.

(** [base64.b64encode(data)]: three bytes become four characters; a last
    group of one or two bytes is padded. *)
Fixpoint b64encode (data : bytes) : bytes :=
  match data with
  | [] => []
  | [x] =>
      let a := Byte.to_N x in
      [b2a (N.shiftr a 2); b2a (N.shiftl (N.land a 0x3) 4);
       BASE64_PAD; BASE64_PAD]
  | [x; y] =>
      let a := Byte.to_N x in
      let b := Byte.to_N y in
      [b2a (N.shiftr a 2);
       b2a (N.lor (N.shiftl (N.land a 0x3) 4) (N.shiftr b 4));
       b2a (N.shiftl (N.land b 0xf) 2);
       BASE64_PAD]
  | x :: y :: z :: rest =>
      let a := Byte.to_N x in
      let b := Byte.to_N y in
      let c := Byte.to_N z in
      b2a (N.shiftr a 2)
      :: b2a (N.lor (N.shiftl (N.land a 0x3) 4) (N.shiftr b 4))
      :: b2a (N.lor (N.shiftl (N.land b 0xf) 2) (N.shiftr c 6))
      :: b2a (N.land c 0x3f)
      :: b64encode rest
  end.

(** The decoding loop. [quad_pos] counts the alphabet characters of the
    current group of four, [leftchar] holds the bits not yet written,
    [pads] the padding characters seen in a row, [out] the bytes written so
    far. A complete padding sequence ends the decoding; running out of
    input inside a group is an error. *)
Fixpoint a2b_loop (ascii_data : bytes) (quad_pos : nat) (leftchar pads : N)
    (out : bytes) : option bytes :=
  match ascii_data with
  | [] => match quad_pos with O => Some out | _ => None end
  | this_ch :: rest =>
      if Byte.eqb this_ch BASE64_PAD then
        if (2 <=? quad_pos)%nat then
          if 4 <=? N.of_nat quad_pos + (pads + 1) then Some out
          else a2b_loop rest quad_pos leftchar (pads + 1) out
        else a2b_loop rest quad_pos leftchar pads out
      else
        match a2b this_ch with
        | None => a2b_loop rest quad_pos leftchar pads out
        | Some v =>
            match quad_pos with
            | 0%nat => a2b_loop rest 1 v 0 out
            | 1%nat =>
                a2b_loop rest 2 (N.land v 0x0f) 0
                  (out ++ [byte_of_N (N.lor (N.shiftl leftchar 2)
                                        (N.shiftr v 4))])
            | 2%nat =>
                a2b_loop rest 3 (N.land v 0x03) 0
                  (out ++ [byte_of_N (N.lor (N.shiftl leftchar 4)
                                        (N.shiftr v 2))])
            | _ =>
                a2b_loop rest 0 0 0
                  (out ++ [byte_of_N (N.lor (N.shiftl leftchar 6) v)])
            end
        end
  end.

(** [base64.b64decode(s)]; [None] stands for [binascii.Error]. *)
Definition b64decode (s : bytes) : option bytes := a2b_loop s 0 0 0 [].

End base64.

(** ** Floats

    The values of the guidance-scale slider: its bounds 1.1 (the nearest
    binary64 value, 0x1.199999999999ap+0) and 10.0, and its default 7.0. *)

Abbreviation float := spec_float.

Definition float_1_1 : float := S754_finite false 0x1199999999999a (-52).

Definition float_7_0 : float := S754_finite false 0x1c000000000000 (-50).

Definition float_10_0 : float := S754_finite false 0x14000000000000 (-49).

(** ** Parsed JSON documents

    The value [json.loads] returns: [null] is [None], an object is a [dict]
    (here a list of bindings with distinct keys, in insertion order). *)

Inductive json : Type :=
| JNull
| JBool (b : bool)
| JInt (i : Z)
| JFloat (f : float)
| JStr (s : str)
| JList (items : list json)
| JDict (bindings : list (str * json)).

Definition str_eqb (a b : str) : bool := bool_decide (a = b).

(** [d.get(key)] on the bindings of a [dict]: [None] when the key is
    missing. *)
Fixpoint dict_get (bindings : list (str * json)) (key : str) : json :=
  match bindings with
  | [] => JNull
  | (k, v) :: rest => if str_eqb k key then v else dict_get rest key
  end.

(** ** Exceptions and outcomes *)

Inductive exn : Type :=
| ClientError (message : str)   (* [err.response["Error"]["Message"]] *)
| ImageError (message : str)    (* [str(err)] *)
| BotoCoreError (message : str)
| JSONDecodeError
| RecursionError
| AttributeError
| TypeError
| IndexError
| KeyError
| UnicodeEncodeError
| UnicodeDecodeError
| BinasciiError
| FileNotFoundError
| UnidentifiedImageError
| OSError.

(** The ways [json.loads] rejects a body: malformed text, bytes that are no
    text, nesting too deep; and the exception of each. *)
Inductive loads_error : Type :=
| Malformed
| NotText
| TooDeep.

Definition loads_exn (e : loads_error) : exn :=
  match e with
  | Malformed => JSONDecodeError
  | NotText => UnicodeDecodeError
  | TooDeep => RecursionError
  end.

Inductive outcome (A : Type) : Type :=
| Ok (a : A)
| Raise (e : exn).
Arguments Ok {A} a.
Arguments Raise {A} e.

(** ** The world the program runs in

    A file is known by the text of its path: the map has no directories and
    no links, so two texts that would reach one file on a disk are two files
    here. The page is recorded as far as validation messages and the
    display of a result go. *)

Inductive level : Type := INFO | ERROR.

Inductive ui_event : Type :=
| StError (message : str)
| StImage (path caption : str)
| StText (generated_image_path : str).

Record World : Type := mkWorld {
  fs : gmap (list N) (list byte);   (* file content, by the text of the path *)
  log : list (level * str);         (* records emitted through [logger] *)
  sent : list str;                  (* bodies the program went to the service with *)
  ui : list ui_event;               (* messages and results put on the page *)
  clock : Z                         (* [int(time.time())] *)
}.

(** A decoded picture. *)
Record Image : Type := mkImage {
  width : Z;
  height : Z;
  raster : bytes
}.

(** What [invoke_model] does with a body: raise, or return a response whose
    body reads as [raw]. *)
Inductive reply : Type :=
| ReplyRaises (e : exn)
| ReplyBody (raw : bytes).

(** What [image.save(path)] does: write the encoded file, or raise and leave
    the file as it is ([None]) or with some residue. *)
Inductive save_result : Type :=
| Saved (content : bytes)
| SaveFails (residue : option bytes).

(** The collaborators outside the repository: the service and the seconds a
    call to it takes, the JSON codec, [str()] of a non-scalar value, and the
    imaging library. [json_loads] is [None] on a body that [json.loads]
    rejects, and [json_loads_raises] then tells why. *)
Record Env : Type := mkEnv {
  invoke_model : str -> reply;
  call_seconds : str -> Z;
  json_dumps : json -> str;
  json_loads : bytes -> option json;
  json_loads_raises : bytes -> loads_error;
  py_repr : json -> str;
  Image_open : bytes -> option Image;
  Image_save : Image -> save_result
}.

Definition M (A : Type) : Type := World -> outcome A * World.

#[global] Instance M_ret : MRet M := fun A a w => (Ok a, w).
#[global] Instance M_bind : MBind M := fun A B f m w =>
  match m w with
  | (Ok a, w') => f a w'
  | (Raise e, w') => (Raise e, w')
  end.

Definition raise {A : Type} (e : exn) : M A := fun w => (Raise e, w).

(** [try: body  except ...: handler]: [handlers e] is the clause that
    catches [e], if any. *)
Definition try_except {A : Type} (body : M A) (handlers : exn -> option (M A))
  : M A := fun w =>
  match body w with
  | (Ok a, w') => (Ok a, w')
  | (Raise e, w') =>
      match handlers e with
      | Some handler => handler w'
      | None => (Raise e, w')
      end
  end.

Definition of_option {A : Type} (o : option A) (e : exn) : M A :=
  match o with
  | Some a => mret a
  | None => raise e
  end.

Definition add_log (entry : level * str) (w : World) : World :=
  mkWorld (fs w) (log w ++ [entry]) (sent w) (ui w) (clock w).

Definition add_sent (body : str) (w : World) : World :=
  mkWorld (fs w) (log w) (sent w ++ [body]) (ui w) (clock w).

Definition add_ui (e : ui_event) (w : World) : World :=
  mkWorld (fs w) (log w) (sent w) (ui w ++ [e]) (clock w).

Definition write (path : str) (content : bytes) (w : World) : World :=
  mkWorld (<[path := content]> (fs w)) (log w) (sent w) (ui w) (clock w).

Definition tick (seconds : Z) (w : World) : World :=
  mkWorld (fs w) (log w) (sent w) (ui w) (clock w + seconds)%Z.

Definition logger (l : level) (message : str) : M unit := fun w =>
  (Ok tt, add_log (l, message) w).

Definition st (e : ui_event) : M unit := fun w => (Ok tt, add_ui e w).

Definition time_time : M Z := fun w => (Ok (clock w), w).

(** [open(path, "rb").read()] *)
Definition read_file (path : str) : M bytes := fun w =>
  match fs w !! path with
  | Some content => (Ok content, w)
  | None => (Raise FileNotFoundError, w)
  end.

(** The file at [path] gets [content]. *)
Definition set_file (path : str) (content : bytes) : M unit := fun w =>
  (Ok tt, write path content w).

(** ** The program *)

Section Program.

Context (env : Env).

Definition MODEL_ID : str := lit "amazon.titan-image-generator-v2:0".

(** [boto3.client(...)] followed by [invoke_model(body=body, ...)], taken
    as one step, with the body it returns already read: a failure to create
    the client is one of the ways the step raises. [sent] records that the
    program got here with [body], not that the service received it. The
    step blocks for as long as it takes. *)
Definition bedrock_invoke_model (body : str) : M bytes := fun w =>
  let w' := tick (call_seconds env body) (add_sent body w) in
  match invoke_model env body with
  | ReplyRaises e => (Raise e, w')
  | ReplyBody raw => (Ok raw, w')
  end.

(** [response_body.get(key)] *)
Definition get (response_body : json) (key : str) : M json :=
  match response_body with
  | JDict bindings => mret (dict_get bindings key)
  | _ => raise AttributeError
  end.

(** [v[0]] *)
Definition subscript0 (v : json) : M json :=
  match v with
  | JList (x :: _) => mret x
  | JList [] => raise IndexError
  | JStr (c :: _) => mret (JStr [c])
  | JStr [] => raise IndexError
  | JDict _ => raise KeyError
  | _ => raise TypeError
  end.

(** [v.encode("ascii")] *)
Definition encode (v : json) : M bytes :=
  match v with
  | JStr s => of_option (encode_ascii s) UnicodeEncodeError
  | _ => raise AttributeError
  end.

(** The text an f-string puts in for a value. *)
Definition format (v : json) : str :=
  match v with
  | JStr s => s
  | JInt i => str_of_int i
  | JBool true => lit "True"
  | JBool false => lit "False"
  | JNull => lit "None"
  | _ => py_repr env v
  end.

Definition is_not_None (v : json) : bool :=
  match v with
  | JNull => false
  | _ => true
  end.

Definition generate_image (body : str) : M bytes :=
  logger INFO
    (lit "Generating image with Amazon Titan Image Generator G1 model "
       ++ MODEL_ID);;
  raw ← bedrock_invoke_model body;
  response_body ← of_option (json_loads env raw)
                    (loads_exn (json_loads_raises env raw));
  images ← get response_body (lit "images");
  base64_image ← subscript0 images;
  base64_bytes ← encode base64_image;
  image_bytes ← of_option (base64.b64decode base64_bytes) BinasciiError;
  finish_reason ← get response_body (lit "error");
  if is_not_None finish_reason then
    raise (ImageError (lit "Image generation error. Error is "
                         ++ format finish_reason))
  else
    logger INFO
      (lit "Successfully generated image with Amazon Titan Image Generator G1 v2 model "
         ++ MODEL_ID);;
    mret image_bytes.

(** The dictionary passed to [json.dumps]. *)
Definition payload (input_image mask_prompt positive_prompt negative_prompt
    outpainting_mode : str) (cfg_scale : float) (seed : Z) : json :=
  JDict
    [ (lit "taskType", JStr (lit "OUTPAINTING"));
      (lit "outPaintingParams",
       JDict
         [ (lit "text", JStr positive_prompt);
           (lit "negativeText", JStr negative_prompt);
           (lit "image", JStr input_image);
           (lit "maskPrompt", JStr mask_prompt);
           (lit "outPaintingMode", JStr outpainting_mode) ]);
      (lit "imageGenerationConfig",
       JDict
         [ (lit "numberOfImages", JInt 1);
           (lit "cfgScale", JFloat cfg_scale);
           (lit "seed", JInt seed) ]) ].

(** The first half of [prepare_outpainting_request_with_mask_prompt]:
    read the source image, encode it, assemble the payload. The
    [logging.basicConfig] call before it does nothing, the root logger
    having been configured when the module was loaded. *)
Definition build_payload (source_image_path mask_prompt positive_prompt
    negative_prompt outpainting_mode : str) (cfg_scale : float) (seed : Z)
  : M json :=
  content ← read_file source_image_path;
  input_image ← of_option (decode_utf8 (base64.b64encode content))
                  UnicodeDecodeError;
  mret (payload input_image mask_prompt positive_prompt negative_prompt
          outpainting_mode cfg_scale seed).

(** [f"output/outpainting_{seed}_{epoch_time}.jpg"] *)
Definition output_path (seed epoch_time : Z) : str :=
  lit "output/outpainting_" ++ str_of_int seed ++ lit "_"
    ++ str_of_int epoch_time ++ lit ".jpg".

(** [image.save(path)] *)
Definition save (image : Image) (path : str) : M unit :=
  match Image_save env image with
  | Saved content => set_file path content
  | SaveFails None => raise OSError
  | SaveFails (Some residue) => set_file path residue;; raise OSError
  end.

(** The [except] clauses of the function. *)
Definition handlers (e : exn) : option (M (option str)) :=
  match e with
  | ClientError message =>
      Some (logger ERROR (lit "A client error occurred: " ++ message);;
            mret None)
  | ImageError message =>
      Some (logger ERROR (lit "A image error occurred: " ++ message);;
            mret None)
  | _ => None
  end.

(** Returns the path of the generated image, or [None] when the function
    falls off its end after a handled exception. *)
Definition prepare_outpainting_request_with_mask_prompt
    (source_image_path mask_prompt positive_prompt negative_prompt
       outpainting_mode : str) (cfg_scale : float) (seed : Z)
  : M (option str) :=
  try_except
    (request ← build_payload source_image_path mask_prompt positive_prompt
                 negative_prompt outpainting_mode cfg_scale seed;
     let body := json_dumps env request in
     image_bytes ← generate_image body;
     image ← of_option (Image_open env image_bytes) UnidentifiedImageError;
     epoch_time ← time_time;
     let generated_image_path := output_path seed epoch_time in
     save image generated_image_path;;
     logger INFO (lit "Generated image saved to " ++ generated_image_path);;
     mret (Some generated_image_path))
    handlers.

(** The response time shown in the text depends on the wall clock and is
    left out of the event. *)
Definition display_response (source_image_path generated_image_path : str)
  : M unit :=
  st (StImage source_image_path (lit "Source Image"));;
  st (StImage generated_image_path (lit "Generated Image"));;
  st (StText generated_image_path).

Record UploadedFile : Type := mkUploadedFile {
  name : str;
  getvalue : bytes
}.

(** What the widgets of the form return on one run of the script. *)
Record Form : Type := mkForm {
  img : option UploadedFile;
  mask_prompt : str;
  positive_prompt : str;
  negative_prompt : str;
  cfg_scale : float;
  seed : Z;
  outpainting_mode : str;
  submitted : bool
}.

Definition is_Some_b {A : Type} (o : option A) : bool :=
  match o with
  | Some _ => true
  | None => false
  end.

(** The body of the form in [main]. Page decoration and the preview of
    the upload are layout and are not recorded. *)
Definition main (form : Form) : M unit :=
  '(image_width, image_height, source_image_path) ←
    match img form with
    | Some uploaded =>
        image ← of_option (Image_open env (getvalue uploaded))
                  UnidentifiedImageError;
        let source_image_path := lit "./tmp/" ++ name uploaded in
        set_file source_image_path (getvalue uploaded);;
        mret (width image, height image, source_image_path)
    | None => mret (0%Z, 0%Z, [])   (* no path is bound, none is used *)
    end;
  (if submitted form && is_Some_b (img form)
      && (image_height <=? 1408)%Z && (image_width <=? 1408)%Z
   then
     generated_image_path ←
       prepare_outpainting_request_with_mask_prompt source_image_path
         (mask_prompt form) (positive_prompt form) (negative_prompt form)
         (outpainting_mode form) (cfg_scale form) (seed form);
     match generated_image_path with
     | Some (c :: path) => display_response source_image_path (c :: path)
     | _ =>
         logger ERROR (lit "Failed to get a valid response from the model.")
     end
   else mret tt);;
  (if submitted form && is_Some_b (img form)
      && ((1408 <? image_height)%Z || (1408 <? image_width)%Z)
   then
     st (StError (lit "Please upload an image with height and width less than or equal to 1408 pixels."))
   else mret tt);;
  (if submitted form && negb (is_Some_b (img form))
   then st (StError (lit "Please upload an image file."))
   else mret tt).

End Program.

(** ** Vocabulary of the statements *)

(** [v[key]] on a parsed document, [None] where there is no such member. *)
Definition member (v : json) (key : str) : json :=
  match v with
  | JDict bindings => dict_get bindings key
  | _ => JNull
  end.

(** The text [b64encode(content).decode("utf8")] evaluates to. *)
Definition b64_text (content : bytes) : str :=
  map Byte.to_N (base64.b64encode content).

(** The body sent for a source image and the parameters of the request. *)
Definition request_body (env : Env) (content : bytes) (mask_prompt
    positive_prompt negative_prompt outpainting_mode : str)
    (cfg_scale : float) (seed : Z) : str :=
  json_dumps env
    (payload (b64_text content) mask_prompt positive_prompt negative_prompt
       outpainting_mode cfg_scale seed).

(** The world when [invoke_model] comes back in [generate_image]: the first
    record logged, the body sent, the time of the call elapsed. *)
Definition called (env : Env) (body : str) (w : World) : World :=
  tick (call_seconds env body)
    (add_sent body
       (add_log
          (INFO,
           lit "Generating image with Amazon Titan Image Generator G1 model "
             ++ MODEL_ID) w)).

(** The world when [generate_image] returns its bytes. *)
Definition generated (env : Env) (body : str) (w : World) : World :=
  add_log
    (INFO,
     lit "Successfully generated image with Amazon Titan Image Generator G1 v2 model "
       ++ MODEL_ID) (called env body w).

(** The ranges of the two sliders of the form. *)
Definition seed_in_range (seed : Z) : Prop := (0 <= seed <= 2147483647)%Z.

Definition cfg_scale_in_range (cfg_scale : float) : Prop :=
  SFleb float_1_1 cfg_scale = true /\ SFleb cfg_scale float_10_0 = true.

Definition is_StError (e : ui_event) : bool :=
  match e with
  | StError _ => true
  | _ => false
  end.

(** ** A sample environment

    A service that answers every request with [r] after three seconds, the
    body parsing as [parsed]; pictures of one fixed size. *)

(** Why [json.loads] rejects a body: the bytes are decoded first. *)
Definition sample_json_loads_raises (raw : bytes) : loads_error :=
  match decode_utf8 raw with
  | Some _ => Malformed
  | None => NotText
  end.

Definition sample_env (r : reply) (parsed : option json) (w h : Z) : Env :=
  mkEnv (fun _ => r) (fun _ => 3%Z) (fun _ => lit "{}") (fun _ => parsed)
    sample_json_loads_raises
    (fun _ => lit "?")
    (fun content => Some (mkImage w h content))
    (fun image => Saved (raster image)).

Definition burger : bytes := list_byte_of_string "burger".

Definition burger_path : str := lit "./tmp/burger.jpg".

Definition sample_world : World :=
  mkWorld (<[burger_path := burger]> ∅) [] [] [] 1724112000.

Definition good_response : json :=
  JDict [ (lit "images", JList [JStr (lit "cGxhdGU=")]) ].

Definition error_response : json :=
  JDict [ (lit "images", JList [JStr (lit "cGxhdGU=")]);
          (lit "error", JStr (lit "blocked by content filter")) ].

Definition error_only_response : json :=
  JDict [ (lit "error", JStr (lit "blocked by content filter")) ].

Definition sample_form (up : option UploadedFile) : Form :=
  mkForm up (lit "Cheeseburger") (lit "A park") (lit "people") float_7_0 42
    (lit "PRECISE") true.

Definition burger_upload : UploadedFile := mkUploadedFile (lit "burger.jpg") burger.

(** A service that hands back, as its first image, the text it was sent for
    the source image. *)
Definition echo_response : json :=
  JDict [ (lit "images", JList [JStr (b64_text burger)]) ].

(** The sample environment with an imaging library that recognises no
    picture. *)
Definition blind_env (r : reply) (parsed : option json) : Env :=
  mkEnv (fun _ => r) (fun _ => 3%Z) (fun _ => lit "{}") (fun _ => parsed)
    sample_json_loads_raises
    (fun _ => lit "?") (fun _ => None) (fun image => Saved (raster image)).

(** The sample environment with a service that answers within the second. *)
Definition instant_env (r : reply) (parsed : option json) : Env :=
  mkEnv (fun _ => r) (fun _ => 0%Z) (fun _ => lit "{}") (fun _ => parsed)
    sample_json_loads_raises
    (fun _ => lit "?") (fun content => Some (mkImage 800 600 content))
    (fun image => Saved (raster image)).

(** * Properties *)

Example b64encode_Man : base64.b64encode (list_byte_of_string "Ma")
                        = list_byte_of_string "TWE=".
Proof. reflexivity. Qed.

Example b64decode_Man : base64.b64decode (list_byte_of_string "TWFu TQ==")
                        = Some (list_byte_of_string "ManM").
Proof. reflexivity. Qed.

Example b64decode_short : base64.b64decode (list_byte_of_string "TWF") = None.
Proof. reflexivity. Qed.

Example str_of_int_neg : str_of_int (-42) = lit "-42" /\ str_of_int 0 = lit "0".
Proof. split; reflexivity. Qed.

(** U+00E9, U+20AC and U+1F354, then an overlong form and a surrogate. *)
Example decode_utf8_multibyte :
  decode_utf8 [xc3; xa9; xe2; x82; xac; xf0; x9f; x8d; x94]
  = Some [0xE9; 0x20AC; 0x1F354]
  /\ decode_utf8 [xc0; x80] = None
  /\ decode_utf8 [xed; xa0; x80] = None.
Proof. repeat split; reflexivity. Qed.

Example encode_ascii_rejects : encode_ascii [0x41; 0xE9] = None.
Proof. reflexivity. Qed.

(** A missing member reads as [None]. *)
Lemma dict_get_missing (bindings : list (str * json)) (key : str) :
  Forall (fun binding => fst binding <> key) bindings ->
  dict_get bindings key = JNull.
Proof.
  induction 1 as [|[k v] rest Hk _ IH]; simpl.
  - reflexivity.
  - unfold str_eqb. rewrite bool_decide_eq_false_2 by exact Hk. exact IH.
Qed.

(** ** Arithmetic of six-bit groups *)

Ltac Zify.zify_post_hook ::= Z.to_euclidean_division_equations.

Lemma lor_shiftl_low (x y k : N) :
  y < 2 ^ k -> N.lor (N.shiftl x k) y = x * 2 ^ k + y.
Proof.
  intros Hy. rewrite N.shiftl_mul_pow2.
  assert (Hland : N.land (x * 2 ^ k) y = 0).
  { apply N.bits_inj_0. intros n. rewrite N.land_spec.
    destruct (N.lt_ge_cases n k) as [Hlt|Hge].
    - rewrite N.mul_pow2_bits_low by assumption. reflexivity.
    - rewrite <- (N.mod_small y (2 ^ k)) by assumption.
      rewrite N.mod_pow2_bits_high by assumption. apply Bool.andb_false_r. }
  rewrite <- N.lxor_lor by assumption.
  symmetry. apply N.add_nocarry_lxor. assumption.
Qed.

Lemma land_3 (a : N) : N.land a 0x3 = a mod 4.
Proof. change 0x3 with (N.ones 2). apply N.land_ones. Qed.

Lemma land_15 (a : N) : N.land a 0xf = a mod 16.
Proof. change 0xf with (N.ones 4). apply N.land_ones. Qed.

Lemma land_63 (a : N) : N.land a 0x3f = a mod 64.
Proof. change 0x3f with (N.ones 6). apply N.land_ones. Qed.

Lemma shiftr_2 (a : N) : N.shiftr a 2 = a / 4.
Proof. apply N.shiftr_div_pow2. Qed.

Lemma shiftr_4 (a : N) : N.shiftr a 4 = a / 16.
Proof. apply N.shiftr_div_pow2. Qed.

Lemma shiftr_6 (a : N) : N.shiftr a 6 = a / 64.
Proof. apply N.shiftr_div_pow2. Qed.

(** The second character of a group, from the first two bytes. *)
Lemma sextet1_arith (a b : N) :
  b < 256 ->
  N.lor (N.shiftl (N.land a 0x3) 4) (N.shiftr b 4) = a mod 4 * 16 + b / 16.
Proof.
  intros Hb. rewrite lor_shiftl_low; rewrite shiftr_4.
  - rewrite land_3. reflexivity.
  - change (2 ^ 4) with 16. lia.
Qed.

(** The third character, from the last two bytes. *)
Lemma sextet2_arith (b c : N) :
  c < 256 ->
  N.lor (N.shiftl (N.land b 0xf) 2) (N.shiftr c 6) = b mod 16 * 4 + c / 64.
Proof.
  intros Hc. rewrite lor_shiftl_low; rewrite shiftr_6.
  - rewrite land_15. reflexivity.
  - change (2 ^ 2) with 4. lia.
Qed.

Lemma first_byte (a b : N) :
  a < 256 -> b < 256 ->
  N.lor (N.shiftl (a / 4) 2) (N.shiftr (a mod 4 * 16 + b / 16) 4) mod 256 = a.
Proof.
  intros Ha Hb. rewrite lor_shiftl_low; rewrite shiftr_4.
  - change (2 ^ 2) with 4. lia.
  - change (2 ^ 2) with 4. lia.
Qed.

Lemma second_byte (b c : N) :
  b < 256 -> c < 256 ->
  N.lor (N.shiftl (b / 16) 4) (N.shiftr (b mod 16 * 4 + c / 64) 2) mod 256 = b.
Proof.
  intros Hb Hc. rewrite lor_shiftl_low; rewrite shiftr_2.
  - change (2 ^ 4) with 16. lia.
  - change (2 ^ 4) with 16. lia.
Qed.

Lemma third_byte (c : N) :
  c < 256 -> N.lor (N.shiftl (c / 64) 6) (c mod 64) mod 256 = c.
Proof.
  intros Hc. rewrite lor_shiftl_low.
  - change (2 ^ 6) with 64. lia.
  - change (2 ^ 6) with 64. lia.
Qed.

Lemma to_N_lt_256 (x : byte) : Byte.to_N x < 256.
Proof. pose proof (Byte.to_N_bounded x). lia. Qed.

Lemma byte_of_N_to_N (n : N) (x : byte) :
  n mod 256 = Byte.to_N x -> byte_of_N n = x.
Proof. intros H. unfold byte_of_N. rewrite H, Byte.of_to_N. reflexivity. Qed.

(** ** The base64 alphabet *)

Lemma a2b_b2a (s : N) :
  s < 64 ->
  base64.a2b (base64.b2a s) = Some s
  /\ Byte.eqb (base64.b2a s) base64.BASE64_PAD = false.
Proof.
  intros Hs. assert (Hn : (N.to_nat s < 64)%nat) by lia.
  rewrite <- (N2Nat.id s). clear Hs.
  remember (N.to_nat s) as n eqn:E. clear E s.
  do 64 (destruct n as [|n]; [vm_compute; split; reflexivity|]).
  lia.
Qed.

Lemma b2a_is_ascii (s : N) : Byte.to_N (base64.b2a s) < 128.
Proof.
  unfold base64.b2a.
  destruct (nth_in_or_default (N.to_nat s) base64.table_b2a_base64
              base64.BASE64_PAD) as [Hin | ->]; [|reflexivity].
  revert Hin. generalize (nth (N.to_nat s) base64.table_b2a_base64
                            base64.BASE64_PAD).
  intros c Hin. vm_compute in Hin.
  repeat (destruct Hin as [<- | Hin]; [reflexivity|]). destruct Hin.
Qed.

(** One alphabet character through the decoding loop. *)
Lemma a2b_loop_sextet (s : N) (rest : bytes) (quad_pos : nat)
    (leftchar pads : N) (out : bytes) :
  s < 64 ->
  base64.a2b_loop (base64.b2a s :: rest) quad_pos leftchar pads out =
  match quad_pos with
  | 0%nat => base64.a2b_loop rest 1 s 0 out
  | 1%nat =>
      base64.a2b_loop rest 2 (N.land s 0x0f) 0
        (out ++ [byte_of_N (N.lor (N.shiftl leftchar 2) (N.shiftr s 4))])
  | 2%nat =>
      base64.a2b_loop rest 3 (N.land s 0x03) 0
        (out ++ [byte_of_N (N.lor (N.shiftl leftchar 4) (N.shiftr s 2))])
  | _ =>
      base64.a2b_loop rest 0 0 0
        (out ++ [byte_of_N (N.lor (N.shiftl leftchar 6) s)])
  end.
Proof.
  intros Hs. destruct (a2b_b2a s Hs) as [Ha Hp].
  cbn [base64.a2b_loop]. rewrite Hp, Ha. reflexivity.
Qed.

(** Induction on a byte string three bytes at a time. *)
Lemma bytes_ind3 (P : bytes -> Prop) :
  P [] ->
  (forall x, P [x]) ->
  (forall x y, P [x; y]) ->
  (forall x y z rest, P rest -> P (x :: y :: z :: rest)) ->
  forall data, P data.
Proof.
  intros H0 H1 H2 H3.
  fix IH 1. intros [|x [|y [|z rest]]].
  - exact H0.
  - apply H1.
  - apply H2.
  - apply H3, IH.
Qed.

(** Decoding an encoding appends the encoded bytes to what was written. *)
Lemma a2b_loop_b64encode (data out : bytes) :
  base64.a2b_loop (base64.b64encode data) 0 0 0 out = Some (out ++ data).
Proof.
  revert out. induction data as [|x|x y|x y z rest IH] using bytes_ind3;
    intros out.
  - cbn. rewrite app_nil_r. reflexivity.
  - pose proof (to_N_lt_256 x) as Hx.
    cbn [base64.b64encode].
    rewrite a2b_loop_sextet by (rewrite shiftr_2; lia).
    replace (N.shiftl (N.land (Byte.to_N x) 3) 4)
      with (Byte.to_N x mod 4 * 16 + 0 / 16)
      by (rewrite <- (sextet1_arith _ 0) by lia; apply N.lor_0_r).
    rewrite a2b_loop_sextet by lia.
    rewrite shiftr_2.
    rewrite (byte_of_N_to_N _ x) by (apply first_byte; lia).
    reflexivity.
  - pose proof (to_N_lt_256 x) as Hx. pose proof (to_N_lt_256 y) as Hy.
    cbn [base64.b64encode].
    rewrite a2b_loop_sextet by (rewrite shiftr_2; lia).
    rewrite sextet1_arith by lia.
    rewrite a2b_loop_sextet by lia.
    replace (N.shiftl (N.land (Byte.to_N y) 15) 2)
      with (Byte.to_N y mod 16 * 4 + 0 / 64)
      by (rewrite <- (sextet2_arith _ 0) by lia; apply N.lor_0_r).
    rewrite a2b_loop_sextet by lia.
    rewrite shiftr_2.
    rewrite (byte_of_N_to_N _ x) by (apply first_byte; lia).
    replace (N.land (Byte.to_N x mod 4 * 16 + Byte.to_N y / 16) 15)
      with (Byte.to_N y / 16) by (rewrite land_15; lia).
    rewrite (byte_of_N_to_N _ y) by (apply second_byte; lia).
    cbn. rewrite <- app_assoc. reflexivity.
  - pose proof (to_N_lt_256 x) as Hx. pose proof (to_N_lt_256 y) as Hy.
    pose proof (to_N_lt_256 z) as Hz.
    cbn [base64.b64encode].
    rewrite a2b_loop_sextet by (rewrite shiftr_2; lia).
    rewrite sextet1_arith by lia.
    rewrite a2b_loop_sextet by lia.
    rewrite sextet2_arith by lia.
    rewrite a2b_loop_sextet by lia.
    rewrite a2b_loop_sextet by (rewrite land_63; lia).
    rewrite shiftr_2.
    rewrite (byte_of_N_to_N _ x) by (apply first_byte; lia).
    replace (N.land (Byte.to_N x mod 4 * 16 + Byte.to_N y / 16) 15)
      with (Byte.to_N y / 16) by (rewrite land_15; lia).
    rewrite (byte_of_N_to_N _ y) by (apply second_byte; lia).
    replace (N.land (Byte.to_N y mod 16 * 4 + Byte.to_N z / 64) 3)
      with (Byte.to_N z / 64) by (rewrite land_3; lia).
    rewrite land_63.
    rewrite (byte_of_N_to_N _ z) by (apply third_byte; lia).
    rewrite IH. rewrite <- !app_assoc. reflexivity.
Qed.

(** [b64decode(b64encode(data)) == data] *)
Lemma b64decode_b64encode (data : bytes) :
  base64.b64decode (base64.b64encode data) = Some data.
Proof. unfold base64.b64decode. apply a2b_loop_b64encode. Qed.

(** ** The text of an encoding *)

Lemma b64encode_is_ascii (data : bytes) :
  Forall (fun c => Byte.to_N c < 128) (base64.b64encode data).
Proof.
  induction data as [|x|x y|x y z rest IH] using bytes_ind3;
    cbn [base64.b64encode];
    repeat (constructor; [first [apply b2a_is_ascii | reflexivity]|]);
    first [constructor | assumption].
Qed.

Lemma decode_utf8_ascii (b : bytes) :
  Forall (fun c => Byte.to_N c < 128) b ->
  decode_utf8 b = Some (map Byte.to_N b).
Proof.
  induction 1 as [|c b Hc _ IH]; cbn [decode_utf8 map].
  - reflexivity.
  - apply N.ltb_lt in Hc. rewrite Hc, IH. reflexivity.
Qed.

Lemma encode_ascii_to_N (b : bytes) :
  Forall (fun c => Byte.to_N c < 128) b ->
  encode_ascii (map Byte.to_N b) = Some b.
Proof.
  induction 1 as [|c b Hc _ IH]; cbn [encode_ascii map].
  - reflexivity.
  - apply N.ltb_lt in Hc. rewrite Hc, IH, Byte.of_to_N. reflexivity.
Qed.

Lemma decode_utf8_b64encode (content : bytes) :
  decode_utf8 (base64.b64encode content) = Some (b64_text content).
Proof. apply decode_utf8_ascii, b64encode_is_ascii. Qed.

(** The text of an encoding decodes to the encoded bytes. *)
Lemma b64_text_roundtrip (content : bytes) :
  encode_ascii (b64_text content) = Some (base64.b64encode content)
  /\ base64.b64decode (base64.b64encode content) = Some content.
Proof.
  split.
  - apply encode_ascii_to_N, b64encode_is_ascii.
  - apply b64decode_b64encode.
Qed.

(** ** Running the program *)

Opaque lit.

Ltac run :=
  unfold of_option, try_except, logger, st, time_time, read_file, set_file,
    raise, mbind, M_bind, mret, M_ret in *.

Section Runs.

Context (env : Env).

Lemma build_payload_found source_image_path mask_prompt positive_prompt
    negative_prompt outpainting_mode cfg_scale seed w content :
  fs w !! source_image_path = Some content ->
  build_payload source_image_path mask_prompt positive_prompt
    negative_prompt outpainting_mode cfg_scale seed w
  = (Ok (payload (b64_text content) mask_prompt positive_prompt
           negative_prompt outpainting_mode cfg_scale seed), w).
Proof.
  intros Hfile. unfold build_payload. run.
  rewrite Hfile, decode_utf8_b64encode. reflexivity.
Qed.

Lemma build_payload_missing source_image_path mask_prompt positive_prompt
    negative_prompt outpainting_mode cfg_scale seed w :
  fs w !! source_image_path = None ->
  build_payload source_image_path mask_prompt positive_prompt
    negative_prompt outpainting_mode cfg_scale seed w
  = (Raise FileNotFoundError, w).
Proof.
  intros Hfile. unfold build_payload. run. rewrite Hfile. reflexivity.
Qed.

(** [generate_image] sends exactly one body and touches neither the files
    nor the page. *)
Lemma generate_image_frame body w :
  let w' := snd (generate_image env body w) in
  fs w' = fs w /\ ui w' = ui w
  /\ clock w' = (clock w + call_seconds env body)%Z
  /\ sent w' = sent w ++ [body].
Proof.
  unfold generate_image, bedrock_invoke_model, get, subscript0, encode. run.
  simpl. repeat (case_match; simplify_eq/=; try done).
Qed.

(** A failure of the call itself leaves [generate_image] at once. *)
Lemma generate_image_call_raises body w e :
  invoke_model env body = ReplyRaises e ->
  generate_image env body w = (Raise e, called env body w).
Proof.
  intros Hreply. unfold generate_image, bedrock_invoke_model. run.
  simpl. rewrite Hreply. reflexivity.
Qed.

(** A response whose first image decodes: the [error] member decides. *)
Lemma generate_image_decoded body w raw bindings first rest ascii
    image_bytes :
  invoke_model env body = ReplyBody raw ->
  json_loads env raw = Some (JDict bindings) ->
  dict_get bindings (lit "images") = JList (JStr first :: rest) ->
  encode_ascii first = Some ascii ->
  base64.b64decode ascii = Some image_bytes ->
  generate_image env body w
  = if is_not_None (dict_get bindings (lit "error"))
    then (Raise (ImageError (lit "Image generation error. Error is "
                               ++ format env (dict_get bindings (lit "error")))),
          called env body w)
    else (Ok image_bytes, generated env body w).
Proof.
  intros Hreply Hjson Himages Hascii Hdecode.
  unfold generate_image, bedrock_invoke_model, get, subscript0, encode. run.
  simpl. rewrite Hreply, Hjson, Himages, Hascii, Hdecode.
  destruct (is_not_None _); reflexivity.
Qed.

(** A response without a first image: the subscript raises, whatever the
    [error] member holds. *)
Lemma generate_image_no_first_image body w raw bindings :
  invoke_model env body = ReplyBody raw ->
  json_loads env raw = Some (JDict bindings) ->
  (dict_get bindings (lit "images") = JNull ->
   generate_image env body w = (Raise TypeError, called env body w))
  /\ (dict_get bindings (lit "images") = JList [] ->
      generate_image env body w = (Raise IndexError, called env body w)).
Proof.
  intros Hreply Hjson.
  unfold generate_image, bedrock_invoke_model, get, subscript0, encode. run.
  simpl. rewrite Hreply, Hjson.
  split; intros ->; reflexivity.
Qed.

(** The function, once the source image has been read. *)
Lemma prepare_unfold source_image_path mask_prompt positive_prompt
    negative_prompt outpainting_mode cfg_scale seed w content :
  fs w !! source_image_path = Some content ->
  prepare_outpainting_request_with_mask_prompt env source_image_path
    mask_prompt positive_prompt negative_prompt outpainting_mode cfg_scale
    seed w
  = match generate_image env
            (request_body env content mask_prompt positive_prompt
               negative_prompt outpainting_mode cfg_scale seed) w with
    | (Ok image_bytes, w1) =>
        match Image_open env image_bytes with
        | None => (Raise UnidentifiedImageError, w1)
        | Some image =>
            let path := output_path seed (clock w1) in
            match Image_save env image with
            | Saved saved =>
                (Ok (Some path),
                 add_log (INFO, lit "Generated image saved to " ++ path)
                   (write path saved w1))
            | SaveFails None => (Raise OSError, w1)
            | SaveFails (Some residue) =>
                (Raise OSError, write path residue w1)
            end
        end
    | (Raise e, w1) =>
        match handlers e with
        | Some handler => handler w1
        | None => (Raise e, w1)
        end
    end.
Proof.
  intros Hfile.
  unfold prepare_outpainting_request_with_mask_prompt, try_except.
  unfold mbind at 1, M_bind at 1.
  rewrite (build_payload_found _ _ _ _ _ _ _ _ _ Hfile).
  fold (request_body env content mask_prompt positive_prompt
          negative_prompt outpainting_mode cfg_scale seed).
  unfold mbind at 1, M_bind at 1.
  destruct (generate_image env _ w) as [[image_bytes|e] w1]; [|reflexivity].
  unfold save. run. simpl.
  destruct (Image_open env image_bytes) as [image|]; [|reflexivity].
  destruct (Image_save env image) as [saved|[residue|]]; reflexivity.
Qed.

(** Without the source image nothing is sent. *)
Lemma prepare_missing_file source_image_path mask_prompt positive_prompt
    negative_prompt outpainting_mode cfg_scale seed w :
  fs w !! source_image_path = None ->
  prepare_outpainting_request_with_mask_prompt env source_image_path
    mask_prompt positive_prompt negative_prompt outpainting_mode cfg_scale
    seed w
  = (Raise FileNotFoundError, w).
Proof.
  intros Hfile.
  unfold prepare_outpainting_request_with_mask_prompt, try_except.
  unfold mbind at 1, M_bind at 1.
  rewrite (build_payload_missing _ _ _ _ _ _ _ _ Hfile). reflexivity.
Qed.

(** What a handler does to the world: one more log record. *)
Lemma handlers_frame e handler w :
  handlers e = Some handler ->
  exists entry, handler w = (Ok None, add_log entry w).
Proof.
  destruct e; simpl; intros [= <-]; run; simpl; eauto.
Qed.

(** The function sends exactly the body of its request, and shows
    nothing. *)
Lemma prepare_frame source_image_path mask_prompt positive_prompt
    negative_prompt outpainting_mode cfg_scale seed w content :
  fs w !! source_image_path = Some content ->
  let w' :=
    snd (prepare_outpainting_request_with_mask_prompt env source_image_path
           mask_prompt positive_prompt negative_prompt outpainting_mode
           cfg_scale seed w) in
  sent w' = sent w ++ [request_body env content mask_prompt positive_prompt
                         negative_prompt outpainting_mode cfg_scale seed]
  /\ ui w' = ui w.
Proof.
  intros Hfile. rewrite (prepare_unfold _ _ _ _ _ _ _ _ _ Hfile).
  pose proof (generate_image_frame
                (request_body env content mask_prompt positive_prompt
                   negative_prompt outpainting_mode cfg_scale seed) w)
    as (_ & Hui & _ & Hsent).
  destruct (generate_image env _ w) as [[image_bytes|e] w1]; simpl in *.
  - destruct (Image_open env image_bytes) as [image|]; [|done].
    destruct (Image_save env image) as [saved|[residue|]]; done.
  - destruct (handlers e) as [handler|] eqn:Hh; [|done].
    destruct (handlers_frame _ _ w1 Hh) as [entry ->]. done.
Qed.

End Runs.

(** ** The model invoker *)

(** C1. When the response body holds an [images] list whose first entry is a
    base64 string that decodes, and its [error] member is null or missing,
    [generate_image] returns, and the bytes it returns are the decoding of
    that first entry. *)
Theorem generate_image_success (env : Env) (body : str) (w : World)
    (raw : bytes) (bindings : list (str * json)) (first : str)
    (rest : list json) (ascii image_bytes : bytes) :
  invoke_model env body = ReplyBody raw ->
  json_loads env raw = Some (JDict bindings) ->
  dict_get bindings (lit "images") = JList (JStr first :: rest) ->
  encode_ascii first = Some ascii ->
  base64.b64decode ascii = Some image_bytes ->
  dict_get bindings (lit "error") = JNull ->
  generate_image env body w = (Ok image_bytes, generated env body w).
Proof.
  intros Hreply Hjson Himages Hascii Hdecode Herror.
  rewrite (generate_image_decoded env body w raw bindings first rest ascii
             image_bytes) by assumption.
  rewrite Herror. reflexivity.
Qed.

Lemma generate_image_success_witness :
  generate_image (sample_env (ReplyBody []) (Some good_response) 800 600)
    (lit "{}") sample_world
  = (Ok (list_byte_of_string "plate"),
     generated (sample_env (ReplyBody []) (Some good_response) 800 600)
       (lit "{}") sample_world).
Proof.
  apply (generate_image_success
           (sample_env (ReplyBody []) (Some good_response) 800 600)
           (lit "{}") sample_world []
           [(lit "images", JList [JStr (lit "cGxhdGU=")])]
           (lit "cGxhdGU=") [] (list_byte_of_string "cGxhdGU=")
           (list_byte_of_string "plate"));
    vm_compute; reflexivity.
Defined.

(** C3. A response that reports an error and carries no [images] member:
    the subscript on the missing list raises [TypeError] before the [error]
    member is read, so no [ImageError] comes out. *)
Theorem error_without_images_raises_TypeError :
  fst (generate_image
         (sample_env (ReplyBody []) (Some error_only_response) 800 600)
         (lit "{}") sample_world)
  = Raise TypeError.
Proof. vm_compute. reflexivity. Qed.

(** With a first image that decodes, the reported error does come out as an
    [ImageError] carrying the message of the service. *)
Lemma generate_image_reported_error (env : Env) (body : str) (w : World)
    (raw : bytes) (bindings : list (str * json)) (first : str)
    (rest : list json) (ascii image_bytes : bytes) (message : str) :
  invoke_model env body = ReplyBody raw ->
  json_loads env raw = Some (JDict bindings) ->
  dict_get bindings (lit "images") = JList (JStr first :: rest) ->
  encode_ascii first = Some ascii ->
  base64.b64decode ascii = Some image_bytes ->
  dict_get bindings (lit "error") = JStr message ->
  generate_image env body w
  = (Raise (ImageError (lit "Image generation error. Error is " ++ message)),
     called env body w).
Proof.
  intros Hreply Hjson Himages Hascii Hdecode Herror.
  rewrite (generate_image_decoded env body w raw bindings first rest ascii
             image_bytes) by assumption.
  rewrite Herror. reflexivity.
Qed.

(** ** The request builder *)

(** C2. Whatever the source image, the prompts, the mode, the scale and the
    seed, the payload built has task type "OUTPAINTING", asks for one image,
    and its [image] member is a base64 text that decodes to the bytes of the
    source image. *)
Theorem payload_outpainting_roundtrip (source_image_path mask_prompt
    positive_prompt negative_prompt outpainting_mode : str)
    (cfg_scale : float) (seed : Z) (w : World) (content : bytes) :
  fs w !! source_image_path = Some content ->
  exists (request : json) (input_image : str) (ascii : bytes),
    build_payload source_image_path mask_prompt positive_prompt
      negative_prompt outpainting_mode cfg_scale seed w = (Ok request, w)
    /\ member request (lit "taskType") = JStr (lit "OUTPAINTING")
    /\ member (member request (lit "imageGenerationConfig"))
         (lit "numberOfImages") = JInt 1
    /\ member (member request (lit "outPaintingParams")) (lit "image")
       = JStr input_image
    /\ encode_ascii input_image = Some ascii
    /\ base64.b64decode ascii = Some content.
Proof.
  intros Hfile.
  exists (payload (b64_text content) mask_prompt positive_prompt
            negative_prompt outpainting_mode cfg_scale seed),
    (b64_text content), (base64.b64encode content).
  destruct (b64_text_roundtrip content) as [Hascii Hdecode].
  split; [apply build_payload_found, Hfile|].
  split; [vm_compute; reflexivity|].
  split; [vm_compute; reflexivity|].
  split; [|split; assumption].
  generalize (b64_text content). intros text. vm_compute. reflexivity.
Qed.

Lemma payload_outpainting_roundtrip_witness :
  exists (request : json) (input_image : str) (ascii : bytes),
    build_payload burger_path (lit "Cheeseburger") (lit "A park")
      (lit "people") (lit "PRECISE") float_7_0 42 sample_world
    = (Ok request, sample_world)
    /\ member request (lit "taskType") = JStr (lit "OUTPAINTING")
    /\ member (member request (lit "imageGenerationConfig"))
         (lit "numberOfImages") = JInt 1
    /\ member (member request (lit "outPaintingParams")) (lit "image")
       = JStr input_image
    /\ encode_ascii input_image = Some ascii
    /\ base64.b64decode ascii = Some burger.
Proof.
  apply payload_outpainting_roundtrip.
  vm_compute. reflexivity.
Defined.

(** C7. For a seed and a guidance scale in the ranges of the sliders, the
    payload built holds that very seed as [seed] and that very scale as
    [cfgScale]. *)
Theorem payload_carries_seed_and_cfg_scale (source_image_path mask_prompt
    positive_prompt negative_prompt outpainting_mode : str)
    (cfg_scale : float) (seed : Z) (w : World) (content : bytes) :
  seed_in_range seed ->
  cfg_scale_in_range cfg_scale ->
  fs w !! source_image_path = Some content ->
  exists request : json,
    build_payload source_image_path mask_prompt positive_prompt
      negative_prompt outpainting_mode cfg_scale seed w = (Ok request, w)
    /\ member (member request (lit "imageGenerationConfig")) (lit "seed")
       = JInt seed
    /\ member (member request (lit "imageGenerationConfig")) (lit "cfgScale")
       = JFloat cfg_scale.
Proof.
  intros _ _ Hfile.
  exists (payload (b64_text content) mask_prompt positive_prompt
            negative_prompt outpainting_mode cfg_scale seed).
  split; [apply build_payload_found, Hfile|].
  split; vm_compute; reflexivity.
Qed.

Lemma payload_carries_seed_and_cfg_scale_witness :
  exists request : json,
    build_payload burger_path (lit "Cheeseburger") (lit "A park")
      (lit "people") (lit "PRECISE") float_7_0 1761198479 sample_world
    = (Ok request, sample_world)
    /\ member (member request (lit "imageGenerationConfig")) (lit "seed")
       = JInt 1761198479
    /\ member (member request (lit "imageGenerationConfig")) (lit "cfgScale")
       = JFloat float_7_0.
Proof.
  apply (payload_carries_seed_and_cfg_scale burger_path (lit "Cheeseburger")
           (lit "A park") (lit "people") (lit "PRECISE") float_7_0 1761198479
           sample_world burger).
  - unfold seed_in_range. lia.
  - split; vm_compute; reflexivity.
  - vm_compute. reflexivity.
Defined.

(** C9. Building the payload reads the source image and nothing else, and
    changes nothing: two runs on the same image bytes and the same
    parameters, in whatever two worlds, give the same payload or the same
    failure, and each leaves its world as it was. *)
Theorem build_payload_pure (path1 path2 mask_prompt positive_prompt
    negative_prompt outpainting_mode : str)
    (cfg_scale : float) (seed : Z) (w1 w2 : World) :
  fs w1 !! path1 = fs w2 !! path2 ->
  fst (build_payload path1 mask_prompt positive_prompt negative_prompt
         outpainting_mode cfg_scale seed w1)
  = fst (build_payload path2 mask_prompt positive_prompt negative_prompt
           outpainting_mode cfg_scale seed w2)
  /\ snd (build_payload path1 mask_prompt positive_prompt negative_prompt
            outpainting_mode cfg_scale seed w1) = w1
  /\ snd (build_payload path2 mask_prompt positive_prompt negative_prompt
            outpainting_mode cfg_scale seed w2) = w2.
Proof.
  intros Hsame.
  destruct (fs w2 !! path2) as [content|] eqn:Hfile.
  - rewrite !(build_payload_found _ _ _ _ _ _ _ _ content) by assumption.
    done.
  - rewrite !build_payload_missing by assumption. done.
Qed.

Lemma build_payload_pure_witness :
  fst (build_payload burger_path (lit "Cheeseburger") (lit "A park")
         (lit "people") (lit "PRECISE") float_7_0 42 sample_world)
  = fst (build_payload burger_path (lit "Cheeseburger") (lit "A park")
           (lit "people") (lit "PRECISE") float_7_0 42
           (tick 60 (add_log (INFO, lit "earlier run") sample_world))).
Proof.
  apply (build_payload_pure burger_path burger_path (lit "Cheeseburger")
           (lit "A park") (lit "people") (lit "PRECISE") float_7_0 42 sample_world
           (tick 60 (add_log (INFO, lit "earlier run") sample_world))).
  vm_compute. reflexivity.
Defined.

(** ** Failures of the call and the generated file *)




(** C5. When the call fails, or [generate_image] raises for whatever
    reason, the function leaves every file as it was; the files change only
    after [generate_image] has returned bytes that opened as a picture. *)
Theorem failed_call_writes_nothing (env : Env) (source_image_path mask_prompt
    positive_prompt negative_prompt outpainting_mode : str)
    (cfg_scale : float) (seed : Z) (w : World) :
  let w' :=
    snd (prepare_outpainting_request_with_mask_prompt env source_image_path
           mask_prompt positive_prompt negative_prompt outpainting_mode
           cfg_scale seed w) in
  (forall (content : bytes) (e : exn),
     fs w !! source_image_path = Some content ->
     invoke_model env
       (request_body env content mask_prompt positive_prompt negative_prompt
          outpainting_mode cfg_scale seed) = ReplyRaises e ->
     fs w' = fs w)
  /\ (forall (content : bytes) (e : exn) (w1 : World),
        fs w !! source_image_path = Some content ->
        generate_image env
          (request_body env content mask_prompt positive_prompt
             negative_prompt outpainting_mode cfg_scale seed) w
        = (Raise e, w1) ->
        fs w' = fs w)
  /\ (fs w' <> fs w ->
      exists (content image_bytes : bytes) (w1 : World) (image : Image),
        fs w !! source_image_path = Some content
        /\ generate_image env
             (request_body env content mask_prompt positive_prompt
                negative_prompt outpainting_mode cfg_scale seed) w
           = (Ok image_bytes, w1)
        /\ Image_open env image_bytes = Some image).
Proof.
  intros w'.
  assert (Hraise : forall content e w1,
             fs w !! source_image_path = Some content ->
             generate_image env
               (request_body env content mask_prompt positive_prompt
                  negative_prompt outpainting_mode cfg_scale seed) w
             = (Raise e, w1) ->
             fs w' = fs w).
  { intros content e w1 Hfile Hgen. unfold w'.
    rewrite (prepare_unfold env _ _ _ _ _ _ _ _ _ Hfile).
    pose proof (generate_image_frame env
                  (request_body env content mask_prompt positive_prompt
                     negative_prompt outpainting_mode cfg_scale seed) w)
      as (Hfs & _).
    rewrite Hgen in *. simpl in Hfs.
    destruct (handlers e) as [handler|] eqn:Hh; [|exact Hfs].
    destruct (handlers_frame _ _ w1 Hh) as [entry ->]. exact Hfs. }
  split; [|split].
  - intros content e Hfile Hreply.
    apply (Hraise content e _ Hfile
             (generate_image_call_raises env _ w e Hreply)).
  - exact Hraise.
  - intros Hchanged.
    destruct (fs w !! source_image_path) as [content|] eqn:Hfile.
    + destruct (generate_image env
                  (request_body env content mask_prompt positive_prompt
                     negative_prompt outpainting_mode cfg_scale seed) w)
        as [[image_bytes|e] w1] eqn:Hgen.
      * destruct (Image_open env image_bytes) as [image|] eqn:Hopen.
        { exists content, image_bytes, w1, image. done. }
        exfalso. apply Hchanged. unfold w'.
        rewrite (prepare_unfold env _ _ _ _ _ _ _ _ _ Hfile), Hgen, Hopen.
        pose proof (generate_image_frame env
                      (request_body env content mask_prompt positive_prompt
                         negative_prompt outpainting_mode cfg_scale seed) w)
          as (Hfs & _).
        rewrite Hgen in Hfs. exact Hfs.
      * exfalso. apply Hchanged. eapply Hraise; eauto.
    + exfalso. apply Hchanged. unfold w'.
      rewrite (prepare_missing_file env _ _ _ _ _ _ _ _ Hfile). reflexivity.
Qed.

Lemma failed_call_writes_nothing_witness :
  fs (snd (prepare_outpainting_request_with_mask_prompt
             (sample_env (ReplyRaises (BotoCoreError (lit "Connection refused")))
                None 800 600)
             burger_path (lit "Cheeseburger") (lit "A park") (lit "people")
             (lit "PRECISE") float_7_0 42 sample_world))
  = fs sample_world.
Proof.
  apply (proj1 (failed_call_writes_nothing
                  (sample_env
                     (ReplyRaises (BotoCoreError (lit "Connection refused")))
                     None 800 600)
                  burger_path (lit "Cheeseburger") (lit "A park")
                  (lit "people") (lit "PRECISE") float_7_0 42 sample_world)
           burger (BotoCoreError (lit "Connection refused"))).
  - vm_compute. reflexivity.
  - vm_compute. reflexivity.
Defined.

(** C8. Whenever the function returns a path, the path is
    [output/outpainting_<seed>_<epoch>.jpg], with the seed of the request and
    the clock as it stands when the file is written, and the file is
    there. *)
Theorem generated_image_path_naming (env : Env) (source_image_path mask_prompt
    positive_prompt negative_prompt outpainting_mode : str)
    (cfg_scale : float) (seed : Z) (w w' : World) (path : str) :
  prepare_outpainting_request_with_mask_prompt env source_image_path
    mask_prompt positive_prompt negative_prompt outpainting_mode cfg_scale
    seed w = (Ok (Some path), w') ->
  path = lit "output/outpainting_" ++ str_of_int seed ++ lit "_"
         ++ str_of_int (clock w') ++ lit ".jpg"
  /\ is_Some (fs w' !! path).
Proof.
  intros Hrun.
  destruct (fs w !! source_image_path) as [content|] eqn:Hfile.
  - rewrite (prepare_unfold env _ _ _ _ _ _ _ _ _ Hfile) in Hrun.
    destruct (generate_image env _ w) as [[image_bytes|e] w1].
    + destruct (Image_open env image_bytes) as [image|]; [|discriminate].
      simpl in Hrun.
      destruct (Image_save env image) as [saved|[residue|]];
        try discriminate.
      injection Hrun as <- <-. split; [reflexivity|].
      simpl. rewrite lookup_insert_eq. eauto.
    + destruct (handlers e) as [handler|] eqn:Hh; [|discriminate].
      destruct (handlers_frame _ _ w1 Hh) as [entry Heq].
      rewrite Heq in Hrun. discriminate.
  - rewrite (prepare_missing_file env _ _ _ _ _ _ _ _ Hfile) in Hrun.
    discriminate.
Qed.

Lemma generated_image_path_naming_witness :
  lit "output/outpainting_42_1724112003.jpg"
  = lit "output/outpainting_" ++ str_of_int 42 ++ lit "_"
    ++ str_of_int 1724112003 ++ lit ".jpg"
  /\ is_Some
       (fs (snd (prepare_outpainting_request_with_mask_prompt
                   (sample_env (ReplyBody []) (Some good_response) 800 600)
                   burger_path (lit "Cheeseburger") (lit "A park")
                   (lit "people") (lit "PRECISE") float_7_0 42 sample_world))
        !! lit "output/outpainting_42_1724112003.jpg").
Proof.
  apply (generated_image_path_naming
           (sample_env (ReplyBody []) (Some good_response) 800 600)
           burger_path (lit "Cheeseburger") (lit "A park") (lit "people")
           (lit "PRECISE") float_7_0 42 sample_world
           (snd (prepare_outpainting_request_with_mask_prompt
                   (sample_env (ReplyBody []) (Some good_response) 800 600)
                   burger_path (lit "Cheeseburger") (lit "A park")
                   (lit "people") (lit "PRECISE") float_7_0 42 sample_world))
           (lit "output/outpainting_42_1724112003.jpg")).
  vm_compute. reflexivity.
Defined.

(** C10. When the [images] member of the response is missing, null or an
    empty list, [generate_image] raises [TypeError] or [IndexError] at the
    subscript, whatever the [error] member holds; no clause of the caller
    catches these, and the exception leaves
    [prepare_outpainting_request_with_mask_prompt]. *)
Theorem missing_images_raise_untyped (env : Env) (source_image_path
    mask_prompt positive_prompt negative_prompt outpainting_mode : str)
    (cfg_scale : float) (seed : Z) (w : World) (content raw : bytes)
    (bindings : list (str * json)) :
  fs w !! source_image_path = Some content ->
  let body :=
    request_body env content mask_prompt positive_prompt negative_prompt
      outpainting_mode cfg_scale seed in
  invoke_model env body = ReplyBody raw ->
  json_loads env raw = Some (JDict bindings) ->
  dict_get bindings (lit "images") = JNull
  \/ dict_get bindings (lit "images") = JList [] ->
  exists e : exn,
    (e = TypeError \/ e = IndexError)
    /\ generate_image env body w = (Raise e, called env body w)
    /\ handlers e = None
    /\ prepare_outpainting_request_with_mask_prompt env source_image_path
         mask_prompt positive_prompt negative_prompt outpainting_mode
         cfg_scale seed w
       = (Raise e, called env body w).
Proof.
  intros Hfile body Hreply Hjson Himages.
  destruct (generate_image_no_first_image env body w raw bindings Hreply
              Hjson) as [Hnull Hempty].
  rewrite (prepare_unfold env _ _ _ _ _ _ _ _ _ Hfile). fold body.
  destruct Himages as [Himages|Himages].
  - exists TypeError. rewrite (Hnull Himages). auto.
  - exists IndexError. rewrite (Hempty Himages). auto.
Qed.

Lemma missing_images_raise_untyped_witness :
  exists e : exn,
    (e = TypeError \/ e = IndexError)
    /\ generate_image
         (sample_env (ReplyBody []) (Some error_only_response) 800 600)
         (lit "{}") sample_world
       = (Raise e,
          called (sample_env (ReplyBody []) (Some error_only_response) 800
                    600) (lit "{}") sample_world)
    /\ handlers e = None
    /\ prepare_outpainting_request_with_mask_prompt
         (sample_env (ReplyBody []) (Some error_only_response) 800 600)
         burger_path (lit "Cheeseburger") (lit "A park") (lit "people")
         (lit "PRECISE") float_7_0 42 sample_world
       = (Raise e,
          called (sample_env (ReplyBody []) (Some error_only_response) 800
                    600) (lit "{}") sample_world).
Proof.
  apply (missing_images_raise_untyped
           (sample_env (ReplyBody []) (Some error_only_response) 800 600)
           burger_path (lit "Cheeseburger") (lit "A park") (lit "people")
           (lit "PRECISE") float_7_0 42 sample_world burger []
           [(lit "error", JStr (lit "blocked by content filter"))]).
  - vm_compute. reflexivity.
  - vm_compute. reflexivity.
  - vm_compute. reflexivity.
  - left. vm_compute. reflexivity.
Defined.

(** ** Validation of the upload *)

(** C6. On a submission: without an upload the page shows "Please upload an
    image file." and nothing is sent; with an upload that opens as a picture
    of at most 1408 by 1408 the request is sent and no error is shown; with
    a picture wider or higher than 1408 the page shows the size error and
    nothing is sent. *)
Theorem main_validation (env : Env) (form : Form) (w : World) :
  submitted form = true ->
  (img form = None ->
   main env form w
   = (Ok tt, add_ui (StError (lit "Please upload an image file.")) w)
   /\ sent (snd (main env form w)) = sent w)
  /\ (forall (uploaded : UploadedFile) (image : Image),
        img form = Some uploaded ->
        Image_open env (getvalue uploaded) = Some image ->
        ((height image <= 1408)%Z /\ (width image <= 1408)%Z ->
         sent (snd (main env form w))
         = sent w ++ [request_body env (getvalue uploaded) (mask_prompt form)
                        (positive_prompt form) (negative_prompt form)
                        (outpainting_mode form) (cfg_scale form) (seed form)]
         /\ List.filter is_StError (ui (snd (main env form w)))
            = List.filter is_StError (ui w))
        /\ ((1408 < height image)%Z \/ (1408 < width image)%Z ->
            main env form w
            = (Ok tt,
               add_ui
                 (StError (lit "Please upload an image with height and width less than or equal to 1408 pixels."))
                 (write (lit "./tmp/" ++ name uploaded) (getvalue uploaded)
                    w))
            /\ sent (snd (main env form w)) = sent w)).
Proof.
  intros Hsubmitted. split.
  - intros Himg. unfold main. rewrite Himg, Hsubmitted. run. simpl. done.
  - intros uploaded image Himg Hopen. unfold main.
    rewrite Himg, Hsubmitted, Hopen. run. simpl. split.
    + intros [Hh Hw].
      apply Z.leb_le in Hh as Hh'. apply Z.leb_le in Hw as Hw'.
      rewrite Hh', Hw'.
      replace ((1408 <? height image)%Z) with false
        by (symmetry; apply Z.ltb_ge; exact Hh).
      replace ((1408 <? width image)%Z) with false
        by (symmetry; apply Z.ltb_ge; exact Hw).
      simpl.
      assert (Hfile : fs (write (lit "./tmp/" ++ name uploaded)
                            (getvalue uploaded) w)
                      !! (lit "./tmp/" ++ name uploaded)
                      = Some (getvalue uploaded))
        by apply lookup_insert_eq.
      pose proof (prepare_frame env _ (mask_prompt form)
                    (positive_prompt form) (negative_prompt form)
                    (outpainting_mode form) (cfg_scale form) (seed form) _ _
                    Hfile) as [Hsent Hui].
      destruct (prepare_outpainting_request_with_mask_prompt env _ _ _ _ _ _
                  _ _) as [[[[|c path]|]|e] w1];
        simpl in Hsent, Hui; unfold display_response; run; simpl;
        rewrite Hsent, Hui; try done.
      rewrite !List.filter_app, !app_nil_r. done.
    + intros Hbig.
      assert (Hsmall : ((height image <=? 1408)%Z
                        && (width image <=? 1408)%Z) = false).
      { apply andb_false_iff. rewrite !Z.leb_gt. exact Hbig. }
      assert (Hlarge : ((1408 <? height image)%Z
                        || (1408 <? width image)%Z) = true).
      { apply orb_true_iff. rewrite !Z.ltb_lt. exact Hbig. }
      rewrite Hsmall, Hlarge. simpl. done.
Qed.

Lemma main_validation_witness :
  sent (snd (main (sample_env (ReplyBody []) (Some good_response) 1408 1408)
               (sample_form (Some burger_upload)) sample_world))
  = [lit "{}"]
  /\ sent (snd (main (sample_env (ReplyBody []) (Some good_response) 1409
                       1408)
                  (sample_form (Some burger_upload)) sample_world))
     = []
  /\ sent (snd (main (sample_env (ReplyBody []) (Some good_response) 800 600)
                  (sample_form None) sample_world))
     = [].
Proof.
  split; [|split].
  - apply (proj1
             (proj2 (main_validation
                       (sample_env (ReplyBody []) (Some good_response) 1408
                          1408)
                       (sample_form (Some burger_upload)) sample_world
                       eq_refl)
                burger_upload (mkImage 1408 1408 burger) eq_refl eq_refl));
      split; vm_compute; discriminate.
  - apply (proj2
             (proj2 (main_validation
                       (sample_env (ReplyBody []) (Some good_response) 1409
                          1408)
                       (sample_form (Some burger_upload)) sample_world
                       eq_refl)
                burger_upload (mkImage 1409 1408 burger) eq_refl eq_refl));
      right; vm_compute; reflexivity.
  - apply (proj1 (main_validation
                    (sample_env (ReplyBody []) (Some good_response) 800 600)
                    (sample_form None) sample_world eq_refl)).
    reflexivity.
Defined.

(** * Further properties *)

(** ** What [generate_image] returns and raises *)

(** X1. The two functions are inverse on the image: when the service hands back,
    as its first image, the [image] member of a payload that [build_payload]
    built, [generate_image] returns the bytes of the source image file. *)
Theorem generate_image_decodes_what_build_payload_encodes (env : Env)
    (source_image_path mask_prompt positive_prompt negative_prompt
       outpainting_mode : str) (cfg_scale : float) (seed : Z)
    (w0 w0' : World) (request : json) (body : str) (w : World) (raw : bytes)
    (bindings : list (str * json)) (rest : list json) :
  build_payload source_image_path mask_prompt positive_prompt negative_prompt
    outpainting_mode cfg_scale seed w0 = (Ok request, w0') ->
  invoke_model env body = ReplyBody raw ->
  json_loads env raw = Some (JDict bindings) ->
  dict_get bindings (lit "images")
  = JList (member (member request (lit "outPaintingParams")) (lit "image")
             :: rest) ->
  dict_get bindings (lit "error") = JNull ->
  exists content : bytes,
    fs w0 !! source_image_path = Some content
    /\ generate_image env body w = (Ok content, generated env body w).
Proof.
  intros Hbuild Hreply Hjson Himages Herror.
  destruct (fs w0 !! source_image_path) as [content|] eqn:Hfile.
  - rewrite (build_payload_found _ _ _ _ _ _ _ _ _ Hfile) in Hbuild.
    injection Hbuild as <- _.
    exists content. split; [reflexivity|].
    assert (Himage : member
                       (member
                          (payload (b64_text content) mask_prompt
                             positive_prompt negative_prompt outpainting_mode
                             cfg_scale seed) (lit "outPaintingParams"))
                       (lit "image") = JStr (b64_text content)).
    { generalize (b64_text content). intros text. vm_compute. reflexivity. }
    rewrite Himage in Himages.
    destruct (b64_text_roundtrip content) as [Hascii Hdecode].
    rewrite (generate_image_decoded env body w raw bindings
               (b64_text content) rest (base64.b64encode content) content)
      by assumption.
    rewrite Herror. reflexivity.
  - rewrite (build_payload_missing _ _ _ _ _ _ _ _ Hfile) in Hbuild.
    discriminate.
Qed.

Lemma generate_image_decodes_what_build_payload_encodes_witness :
  exists content : bytes,
    fs sample_world !! burger_path = Some content
    /\ generate_image (sample_env (ReplyBody []) (Some echo_response) 800 600)
         (lit "{}") sample_world
       = (Ok content,
          generated (sample_env (ReplyBody []) (Some echo_response) 800 600)
            (lit "{}") sample_world).
Proof.
  apply (generate_image_decodes_what_build_payload_encodes
           (sample_env (ReplyBody []) (Some echo_response) 800 600)
           burger_path (lit "Cheeseburger") (lit "A park") (lit "people")
           (lit "PRECISE") float_7_0 42 sample_world sample_world
           (payload (b64_text burger) (lit "Cheeseburger") (lit "A park")
              (lit "people") (lit "PRECISE") float_7_0 42)
           (lit "{}") sample_world []
           [(lit "images", JList [JStr (b64_text burger)])] []);
    vm_compute; reflexivity.
Defined.

(** X2. [generate_image] returns bytes only for a response that is an object
    with no reported error, and the bytes are then the decoding of the first
    image (of the first character, when [images] is a string). *)
Theorem generate_image_returns_only_without_error (env : Env) (body : str)
    (w w1 : World) (image_bytes : bytes) :
  generate_image env body w = (Ok image_bytes, w1) ->
  exists (raw : bytes) (bindings : list (str * json)) (first : str)
         (ascii : bytes),
    invoke_model env body = ReplyBody raw
    /\ json_loads env raw = Some (JDict bindings)
    /\ dict_get bindings (lit "error") = JNull
    /\ ((exists rest, dict_get bindings (lit "images")
                      = JList (JStr first :: rest))
        \/ (exists c rest, dict_get bindings (lit "images") = JStr (c :: rest)
                           /\ first = [c]))
    /\ encode_ascii first = Some ascii
    /\ base64.b64decode ascii = Some image_bytes
    /\ w1 = generated env body w.
Proof.
  unfold generate_image, bedrock_invoke_model, get, subscript0, encode. run.
  simpl. intros Hrun.
  repeat (case_match; simplify_eq/=; try done);
    do 4 eexists; repeat split; eauto.
  all: match goal with
       | H : is_not_None ?v = false |- ?v = JNull =>
           destruct v; simpl in H; congruence
       | Hc : (?n <? 128) = true, Hb : Byte.of_N ?n = Some ?b
         |- encode_ascii [?n] = Some [?b] =>
           simpl; rewrite Hc, Hb; reflexivity
       end.
Qed.

Lemma generate_image_returns_only_without_error_witness :
  exists (raw : bytes) (bindings : list (str * json)) (first : str)
         (ascii : bytes),
    invoke_model (sample_env (ReplyBody []) (Some good_response) 800 600)
      (lit "{}") = ReplyBody raw
    /\ json_loads (sample_env (ReplyBody []) (Some good_response) 800 600) raw
       = Some (JDict bindings)
    /\ dict_get bindings (lit "error") = JNull
    /\ ((exists rest, dict_get bindings (lit "images")
                      = JList (JStr first :: rest))
        \/ (exists c rest, dict_get bindings (lit "images") = JStr (c :: rest)
                           /\ first = [c]))
    /\ encode_ascii first = Some ascii
    /\ base64.b64decode ascii = Some (list_byte_of_string "plate")
    /\ generated (sample_env (ReplyBody []) (Some good_response) 800 600)
         (lit "{}") sample_world
       = generated (sample_env (ReplyBody []) (Some good_response) 800 600)
           (lit "{}") sample_world.
Proof.
  apply (generate_image_returns_only_without_error
           (sample_env (ReplyBody []) (Some good_response) 800 600)
           (lit "{}") sample_world).
  vm_compute. reflexivity.
Defined.

(** X3. A reported error of any JSON type comes out as an [ImageError] whose
    message ends with the text of the value, provided the first image
    decodes; nothing is logged after the call. *)
Theorem generate_image_reports_any_error (env : Env) (body : str) (w : World)
    (raw : bytes) (bindings : list (str * json)) (first : str)
    (rest : list json) (ascii image_bytes : bytes) :
  invoke_model env body = ReplyBody raw ->
  json_loads env raw = Some (JDict bindings) ->
  dict_get bindings (lit "images") = JList (JStr first :: rest) ->
  encode_ascii first = Some ascii ->
  base64.b64decode ascii = Some image_bytes ->
  dict_get bindings (lit "error") <> JNull ->
  generate_image env body w
  = (Raise (ImageError (lit "Image generation error. Error is "
                          ++ format env (dict_get bindings (lit "error")))),
     called env body w)
  /\ (forall i : Z,
        dict_get bindings (lit "error") = JInt i ->
        format env (dict_get bindings (lit "error")) = str_of_int i)
  /\ (forall message : str,
        dict_get bindings (lit "error") = JStr message ->
        format env (dict_get bindings (lit "error")) = message).
Proof.
  intros Hreply Hjson Himages Hascii Hdecode Herror.
  split; [|split; intros ? ->; reflexivity].
  rewrite (generate_image_decoded env body w raw bindings first rest ascii
             image_bytes) by assumption.
  destruct (dict_get bindings (lit "error")); try reflexivity.
  contradiction.
Qed.

Lemma generate_image_reports_any_error_witness :
  generate_image
    (sample_env (ReplyBody [])
       (Some (JDict [ (lit "images", JList [JStr (lit "cGxhdGU=")]);
                      (lit "error", JInt 429) ])) 800 600)
    (lit "{}") sample_world
  = (Raise (ImageError (lit "Image generation error. Error is 429")),
     called
       (sample_env (ReplyBody [])
          (Some (JDict [ (lit "images", JList [JStr (lit "cGxhdGU=")]);
                         (lit "error", JInt 429) ])) 800 600)
       (lit "{}") sample_world).
Proof.
  apply (generate_image_reports_any_error
           (sample_env (ReplyBody [])
              (Some (JDict [ (lit "images", JList [JStr (lit "cGxhdGU=")]);
                             (lit "error", JInt 429) ])) 800 600)
           (lit "{}") sample_world []
           [ (lit "images", JList [JStr (lit "cGxhdGU=")]);
             (lit "error", JInt 429) ]
           (lit "cGxhdGU=") [] (list_byte_of_string "cGxhdGU=")
           (list_byte_of_string "plate"));
    vm_compute; first [reflexivity | discriminate].
Defined.

(** X4. An [ImageError] leaves [generate_image] only when the service answered
    with an object whose first image decoded and whose [error] member is
    not null: a reported error never surfaces as [ImageError] without a
    decodable image beside it. *)
Theorem generate_image_ImageError_only_after_decoding (env : Env) (body : str)
    (w w1 : World) (raw : bytes) (message : str) :
  invoke_model env body = ReplyBody raw ->
  generate_image env body w = (Raise (ImageError message), w1) ->
  exists (bindings : list (str * json)) (first : str)
         (ascii image_bytes : bytes),
    json_loads env raw = Some (JDict bindings)
    /\ dict_get bindings (lit "error") <> JNull
    /\ message = lit "Image generation error. Error is "
                 ++ format env (dict_get bindings (lit "error"))
    /\ ((exists rest, dict_get bindings (lit "images")
                      = JList (JStr first :: rest))
        \/ (exists c rest, dict_get bindings (lit "images") = JStr (c :: rest)
                           /\ first = [c]))
    /\ encode_ascii first = Some ascii
    /\ base64.b64decode ascii = Some image_bytes.
Proof.
  intros Hreply.
  unfold generate_image, bedrock_invoke_model, get, subscript0, encode. run.
  simpl. rewrite Hreply. intros Hrun.
  repeat (case_match; simplify_eq/=; try done;
          try match goal with
              | H : loads_exn ?why = ImageError _ |- _ =>
                  destruct why; discriminate
              end);
    do 4 eexists; repeat split; eauto.
  all: match goal with
       | H : is_not_None ?v = true |- ?v <> JNull =>
           intros Hnull; rewrite Hnull in H; discriminate
       | Hc : (?n <? 128) = true, Hb : Byte.of_N ?n = Some ?b
         |- encode_ascii [?n] = Some [?b] =>
           simpl; rewrite Hc, Hb; reflexivity
       end.
Qed.

Lemma generate_image_ImageError_only_after_decoding_witness :
  exists (bindings : list (str * json)) (first : str)
         (ascii image_bytes : bytes),
    json_loads (sample_env (ReplyBody []) (Some error_response) 800 600) []
    = Some (JDict bindings)
    /\ dict_get bindings (lit "error") <> JNull
    /\ lit "Image generation error. Error is blocked by content filter"
       = lit "Image generation error. Error is "
         ++ format (sample_env (ReplyBody []) (Some error_response) 800 600)
              (dict_get bindings (lit "error"))
    /\ ((exists rest, dict_get bindings (lit "images")
                      = JList (JStr first :: rest))
        \/ (exists c rest, dict_get bindings (lit "images") = JStr (c :: rest)
                           /\ first = [c]))
    /\ encode_ascii first = Some ascii
    /\ base64.b64decode ascii = Some image_bytes.
Proof.
  apply (generate_image_ImageError_only_after_decoding
           (sample_env (ReplyBody []) (Some error_response) 800 600)
           (lit "{}") sample_world
           (called (sample_env (ReplyBody []) (Some error_response) 800 600)
              (lit "{}") sample_world)
           []
           (lit "Image generation error. Error is blocked by content filter"));
    vm_compute; reflexivity.
Defined.



(** X6. A first image that is not a string raises [AttributeError], one with a
    character outside ASCII [UnicodeEncodeError], one that is not complete
    base64 [binascii.Error]; each of them whatever the [error] member
    holds. *)
Theorem generate_image_undecodable_first_image (env : Env) (body : str)
    (w : World) (raw : bytes) (bindings : list (str * json)) (first : json)
    (rest : list json) :
  invoke_model env body = ReplyBody raw ->
  json_loads env raw = Some (JDict bindings) ->
  dict_get bindings (lit "images") = JList (first :: rest) ->
  ((forall s, first <> JStr s) ->
   generate_image env body w = (Raise AttributeError, called env body w))
  /\ (forall s : str,
        first = JStr s -> encode_ascii s = None ->
        generate_image env body w
        = (Raise UnicodeEncodeError, called env body w))
  /\ (forall (s : str) (ascii : bytes),
        first = JStr s -> encode_ascii s = Some ascii ->
        base64.b64decode ascii = None ->
        generate_image env body w = (Raise BinasciiError, called env body w)).
Proof.
  intros Hreply Hjson Himages.
  unfold generate_image, bedrock_invoke_model, get, subscript0, encode. run.
  simpl. rewrite Hreply, Hjson, Himages. split; [|split].
  - intros Hfirst. destruct first; try reflexivity.
    exfalso. eapply Hfirst. reflexivity.
  - intros s -> ->. reflexivity.
  - intros s ascii -> -> ->. reflexivity.
Qed.

Lemma generate_image_undecodable_first_image_witness :
  generate_image
    (sample_env (ReplyBody [])
       (Some (JDict [ (lit "images", JList [JStr (lit "cGxhdGU")]);
                      (lit "error", JStr (lit "blocked")) ])) 800 600)
    (lit "{}") sample_world
  = (Raise BinasciiError,
     called
       (sample_env (ReplyBody [])
          (Some (JDict [ (lit "images", JList [JStr (lit "cGxhdGU")]);
                         (lit "error", JStr (lit "blocked")) ])) 800 600)
       (lit "{}") sample_world).
Proof.
  apply (proj2 (proj2 (generate_image_undecodable_first_image
                         (sample_env (ReplyBody [])
                            (Some (JDict [ (lit "images",
                                            JList [JStr (lit "cGxhdGU")]);
                                           (lit "error",
                                            JStr (lit "blocked")) ]))
                            800 600)
                         (lit "{}") sample_world []
                         [ (lit "images", JList [JStr (lit "cGxhdGU")]);
                           (lit "error", JStr (lit "blocked")) ]
                         (JStr (lit "cGxhdGU")) [] eq_refl eq_refl
                         ltac:(vm_compute; reflexivity)))
           (lit "cGxhdGU") (list_byte_of_string "cGxhdGU"));
    vm_compute; reflexivity.
Defined.

(** ** What [prepare_outpainting_request_with_mask_prompt] does *)

Section Prepare.

Context (env : Env).

(** A run that returns a path, taken apart. *)
Lemma prepare_returns_path source_image_path mask_prompt positive_prompt
    negative_prompt outpainting_mode cfg_scale seed w w' path :
  prepare_outpainting_request_with_mask_prompt env source_image_path
    mask_prompt positive_prompt negative_prompt outpainting_mode cfg_scale
    seed w = (Ok (Some path), w') ->
  exists (content image_bytes : bytes) (w1 : World) (image : Image)
         (saved : bytes),
    fs w !! source_image_path = Some content
    /\ generate_image env
         (request_body env content mask_prompt positive_prompt
            negative_prompt outpainting_mode cfg_scale seed) w
       = (Ok image_bytes, w1)
    /\ Image_open env image_bytes = Some image
    /\ Image_save env image = Saved saved
    /\ path = output_path seed (clock w1)
    /\ w' = add_log (INFO, lit "Generated image saved to " ++ path)
              (write path saved w1).
Proof.
  intros Hrun.
  destruct (fs w !! source_image_path) as [content|] eqn:Hfile.
  - rewrite (prepare_unfold env _ _ _ _ _ _ _ _ _ Hfile) in Hrun.
    destruct (generate_image env _ w) as [[image_bytes|e] w1] eqn:Hgen.
    + destruct (Image_open env image_bytes) as [image|] eqn:Hopen;
        [|discriminate].
      simpl in Hrun.
      destruct (Image_save env image) as [saved|[residue|]] eqn:Hsave;
        try discriminate.
      injection Hrun as <- <-.
      exists content, image_bytes, w1, image, saved. done.
    + destruct (handlers e) as [handler|] eqn:Hh; [|discriminate].
      destruct (handlers_frame _ _ w1 Hh) as [entry Heq].
      rewrite Heq in Hrun. discriminate.
  - rewrite (prepare_missing_file env _ _ _ _ _ _ _ _ Hfile) in Hrun.
    discriminate.
Qed.

(** A run whose call returned bytes that open and save. *)
Lemma prepare_after_generate source_image_path mask_prompt positive_prompt
    negative_prompt outpainting_mode cfg_scale seed w content image_bytes w1
    image saved :
  fs w !! source_image_path = Some content ->
  generate_image env
    (request_body env content mask_prompt positive_prompt negative_prompt
       outpainting_mode cfg_scale seed) w = (Ok image_bytes, w1) ->
  Image_open env image_bytes = Some image ->
  Image_save env image = Saved saved ->
  prepare_outpainting_request_with_mask_prompt env source_image_path
    mask_prompt positive_prompt negative_prompt outpainting_mode cfg_scale
    seed w
  = (Ok (Some (output_path seed (clock w1))),
     add_log
       (INFO, lit "Generated image saved to " ++ output_path seed (clock w1))
       (write (output_path seed (clock w1)) saved w1)).
Proof.
  intros Hfile Hgen Hopen Hsave.
  rewrite (prepare_unfold env _ _ _ _ _ _ _ _ _ Hfile), Hgen, Hopen.
  simpl. rewrite Hsave. reflexivity.
Qed.

End Prepare.

(** The name of a generated file starts with the letter o. *)
Lemma output_path_head (seed epoch_time : Z) :
  exists rest : str, output_path seed epoch_time = 111 :: rest.
Proof.
  unfold output_path.
  change (lit "output/outpainting_") with (111 :: lit "utput/outpainting_").
  eexists. reflexivity.
Qed.


(** X7. No retry: in a run the program goes to the service at most once,
    with the dumped payload of the request as body, and not at all when the
    source image cannot be read. *)
Theorem prepare_goes_to_the_service_at_most_once (env : Env)
    (source_image_path mask_prompt positive_prompt negative_prompt
       outpainting_mode : str) (cfg_scale : float) (seed : Z) (w : World) :
  let w' :=
    snd (prepare_outpainting_request_with_mask_prompt env source_image_path
           mask_prompt positive_prompt negative_prompt outpainting_mode
           cfg_scale seed w) in
  match fs w !! source_image_path with
  | Some content =>
      sent w' = sent w
      \/ sent w'
         = sent w ++ [request_body env content mask_prompt positive_prompt
                        negative_prompt outpainting_mode cfg_scale seed]
  | None => sent w' = sent w
  end.
Proof.
  intros w'. unfold w'.
  destruct (fs w !! source_image_path) as [content|] eqn:Hfile.
  - right. apply (prepare_frame env _ _ _ _ _ _ _ _ _ Hfile).
  - rewrite (prepare_missing_file env _ _ _ _ _ _ _ _ Hfile). reflexivity.
Qed.

(** X8. Neither a [ClientError] nor an [ImageError] ever leaves the function. *)
Theorem prepare_never_raises_handled (env : Env) (source_image_path
    mask_prompt positive_prompt negative_prompt outpainting_mode : str)
    (cfg_scale : float) (seed : Z) (w : World) (message : str) :
  fst (prepare_outpainting_request_with_mask_prompt env source_image_path
         mask_prompt positive_prompt negative_prompt outpainting_mode
         cfg_scale seed w) <> Raise (ClientError message)
  /\ fst (prepare_outpainting_request_with_mask_prompt env source_image_path
            mask_prompt positive_prompt negative_prompt outpainting_mode
            cfg_scale seed w) <> Raise (ImageError message).
Proof.
  destruct (fs w !! source_image_path) as [content|] eqn:Hfile.
  - rewrite (prepare_unfold env _ _ _ _ _ _ _ _ _ Hfile).
    destruct (generate_image env _ w) as [[image_bytes|e] w1].
    + destruct (Image_open env image_bytes) as [image|]; [|done].
      simpl. destruct (Image_save env image) as [saved|[residue|]]; done.
    + destruct (handlers e) as [handler|] eqn:Hh.
      * destruct (handlers_frame _ _ w1 Hh) as [entry ->]. done.
      * destruct e; simpl in Hh; done.
  - rewrite (prepare_missing_file env _ _ _ _ _ _ _ _ Hfile). done.
Qed.

(** X9. The function returns [None] exactly when [generate_image] raised a
    [ClientError] or an [ImageError]. *)
Theorem prepare_returns_None_iff (env : Env) (source_image_path mask_prompt
    positive_prompt negative_prompt outpainting_mode : str)
    (cfg_scale : float) (seed : Z) (w : World) (content : bytes) :
  fs w !! source_image_path = Some content ->
  let body :=
    request_body env content mask_prompt positive_prompt negative_prompt
      outpainting_mode cfg_scale seed in
  fst (prepare_outpainting_request_with_mask_prompt env source_image_path
         mask_prompt positive_prompt negative_prompt outpainting_mode
         cfg_scale seed w) = Ok None
  <-> exists message : str,
        fst (generate_image env body w) = Raise (ClientError message)
        \/ fst (generate_image env body w) = Raise (ImageError message).
Proof.
  intros Hfile body.
  rewrite (prepare_unfold env _ _ _ _ _ _ _ _ _ Hfile). fold body.
  destruct (generate_image env body w) as [[image_bytes|e] w1]; simpl.
  - split.
    + destruct (Image_open env image_bytes) as [image|]; [|done].
      destruct (Image_save env image) as [saved|[residue|]]; done.
    + intros [message [?|?]]; done.
  - destruct e; simpl; split; try done; eauto;
      intros [m [?|?]]; done.
Qed.

Lemma prepare_returns_None_iff_witness :
  fst (prepare_outpainting_request_with_mask_prompt
         (sample_env (ReplyBody []) (Some good_response) 800 600)
         burger_path (lit "Cheeseburger") (lit "A park") (lit "people")
         (lit "PRECISE") float_7_0 42 sample_world) = Ok None
  <-> exists message : str,
        fst (generate_image
               (sample_env (ReplyBody []) (Some good_response) 800 600)
               (request_body
                  (sample_env (ReplyBody []) (Some good_response) 800 600)
                  burger (lit "Cheeseburger") (lit "A park") (lit "people")
                  (lit "PRECISE") float_7_0 42) sample_world)
        = Raise (ClientError message)
        \/ fst (generate_image
                  (sample_env (ReplyBody []) (Some good_response) 800 600)
                  (request_body
                     (sample_env (ReplyBody []) (Some good_response) 800 600)
                     burger (lit "Cheeseburger") (lit "A park")
                     (lit "people") (lit "PRECISE") float_7_0 42)
                  sample_world)
           = Raise (ImageError message).
Proof.
  apply (prepare_returns_None_iff
           (sample_env (ReplyBody []) (Some good_response) 800 600)
           burger_path (lit "Cheeseburger") (lit "A park") (lit "people")
           (lit "PRECISE") float_7_0 42 sample_world burger).
  vm_compute. reflexivity.
Defined.

(** X10. Any other exception that [generate_image] raises, a connection failure
    for one, leaves the function as it is: no clause catches it and nothing
    more is logged. *)
Theorem unhandled_exceptions_escape (env : Env) (source_image_path mask_prompt
    positive_prompt negative_prompt outpainting_mode : str)
    (cfg_scale : float) (seed : Z) (w w1 : World) (content : bytes)
    (e : exn) :
  fs w !! source_image_path = Some content ->
  (forall message, e <> ClientError message) ->
  (forall message, e <> ImageError message) ->
  generate_image env
    (request_body env content mask_prompt positive_prompt negative_prompt
       outpainting_mode cfg_scale seed) w = (Raise e, w1) ->
  prepare_outpainting_request_with_mask_prompt env source_image_path
    mask_prompt positive_prompt negative_prompt outpainting_mode cfg_scale
    seed w = (Raise e, w1).
Proof.
  intros Hfile Hclient Himage Hgen.
  rewrite (prepare_unfold env _ _ _ _ _ _ _ _ _ Hfile), Hgen.
  destruct e; try reflexivity.
  - exfalso. eapply Hclient. reflexivity.
  - exfalso. eapply Himage. reflexivity.
Qed.

Lemma unhandled_exceptions_escape_witness :
  prepare_outpainting_request_with_mask_prompt
    (sample_env (ReplyRaises (BotoCoreError (lit "Connection refused"))) None
       800 600)
    burger_path (lit "Cheeseburger") (lit "A park") (lit "people")
    (lit "PRECISE") float_7_0 42 sample_world
  = (Raise (BotoCoreError (lit "Connection refused")),
     called
       (sample_env (ReplyRaises (BotoCoreError (lit "Connection refused")))
          None 800 600) (lit "{}") sample_world).
Proof.
  apply (unhandled_exceptions_escape
           (sample_env (ReplyRaises (BotoCoreError (lit "Connection refused")))
              None 800 600)
           burger_path (lit "Cheeseburger") (lit "A park") (lit "people")
           (lit "PRECISE") float_7_0 42 sample_world
           (called
              (sample_env
                 (ReplyRaises (BotoCoreError (lit "Connection refused")))
                 None 800 600) (lit "{}") sample_world)
           burger (BotoCoreError (lit "Connection refused"))).
  - vm_compute. reflexivity.
  - discriminate.
  - discriminate.
  - vm_compute. reflexivity.
Defined.

(** X11. When the source image is not there, [FileNotFoundError] leaves the
    function before anything is logged or sent. *)
Theorem prepare_without_source_image (env : Env) (source_image_path
    mask_prompt positive_prompt negative_prompt outpainting_mode : str)
    (cfg_scale : float) (seed : Z) (w : World) :
  fs w !! source_image_path = None ->
  prepare_outpainting_request_with_mask_prompt env source_image_path
    mask_prompt positive_prompt negative_prompt outpainting_mode cfg_scale
    seed w = (Raise FileNotFoundError, w)
  /\ handlers FileNotFoundError = None.
Proof.
  intros Hfile. split; [|reflexivity].
  apply prepare_missing_file, Hfile.
Qed.

Lemma prepare_without_source_image_witness :
  prepare_outpainting_request_with_mask_prompt
    (sample_env (ReplyBody []) (Some good_response) 800 600)
    (lit "./tmp/salad.jpg") (lit "Cheeseburger") (lit "A park")
    (lit "people") (lit "PRECISE") float_7_0 42 sample_world
  = (Raise FileNotFoundError, sample_world)
  /\ handlers FileNotFoundError = None.
Proof.
  apply (prepare_without_source_image
           (sample_env (ReplyBody []) (Some good_response) 800 600)).
  vm_compute. reflexivity.
Defined.

(** X12. Bytes that do not open as a picture: [UnidentifiedImageError] leaves the
    function, after the success of the call was logged, and no file is
    written. *)
Theorem prepare_not_a_picture (env : Env) (source_image_path mask_prompt
    positive_prompt negative_prompt outpainting_mode : str)
    (cfg_scale : float) (seed : Z) (w w1 : World)
    (content image_bytes : bytes) :
  fs w !! source_image_path = Some content ->
  generate_image env
    (request_body env content mask_prompt positive_prompt negative_prompt
       outpainting_mode cfg_scale seed) w = (Ok image_bytes, w1) ->
  Image_open env image_bytes = None ->
  prepare_outpainting_request_with_mask_prompt env source_image_path
    mask_prompt positive_prompt negative_prompt outpainting_mode cfg_scale
    seed w = (Raise UnidentifiedImageError, w1)
  /\ fs w1 = fs w.
Proof.
  intros Hfile Hgen Hopen. split.
  - rewrite (prepare_unfold env _ _ _ _ _ _ _ _ _ Hfile), Hgen, Hopen.
    reflexivity.
  - pose proof (generate_image_frame env
                  (request_body env content mask_prompt positive_prompt
                     negative_prompt outpainting_mode cfg_scale seed) w)
      as (Hfs & _).
    rewrite Hgen in Hfs. exact Hfs.
Qed.

Lemma prepare_not_a_picture_witness :
  prepare_outpainting_request_with_mask_prompt
    (blind_env (ReplyBody []) (Some good_response))
    burger_path (lit "Cheeseburger") (lit "A park") (lit "people")
    (lit "PRECISE") float_7_0 42 sample_world
  = (Raise UnidentifiedImageError,
     generated (blind_env (ReplyBody []) (Some good_response)) (lit "{}")
       sample_world)
  /\ fs (generated (blind_env (ReplyBody []) (Some good_response)) (lit "{}")
           sample_world)
     = fs sample_world.
Proof.
  apply (prepare_not_a_picture (blind_env (ReplyBody []) (Some good_response))
           burger_path (lit "Cheeseburger") (lit "A park") (lit "people")
           (lit "PRECISE") float_7_0 42 sample_world
           (generated (blind_env (ReplyBody []) (Some good_response))
              (lit "{}") sample_world)
           burger (list_byte_of_string "plate"));
    vm_compute; reflexivity.
Defined.

(** X13. Whatever the outcome of a run, the function writes at most once,
    and then to the path named after the seed and the second in which the
    call came back: the files afterwards are those before, or those before
    with that one path written. *)
Theorem prepare_writes_at_most_its_output (env : Env) (source_image_path
    mask_prompt positive_prompt negative_prompt outpainting_mode : str)
    (cfg_scale : float) (seed : Z) (w : World) (content : bytes) :
  fs w !! source_image_path = Some content ->
  let body :=
    request_body env content mask_prompt positive_prompt negative_prompt
      outpainting_mode cfg_scale seed in
  let w' :=
    snd (prepare_outpainting_request_with_mask_prompt env source_image_path
           mask_prompt positive_prompt negative_prompt outpainting_mode
           cfg_scale seed w) in
  fs w' = fs w
  \/ exists written : bytes,
       fs w' = <[output_path seed (clock w + call_seconds env body)%Z
                 := written]> (fs w).
Proof.
  intros Hfile body w'. unfold w'.
  rewrite (prepare_unfold env _ _ _ _ _ _ _ _ _ Hfile). fold body.
  pose proof (generate_image_frame env body w) as (Hfs & _ & Hclock & _).
  destruct (generate_image env body w) as [[image_bytes|e] w1];
    simpl in Hfs, Hclock.
  - destruct (Image_open env image_bytes) as [image|]; [|left; exact Hfs].
    simpl.
    destruct (Image_save env image) as [saved|[residue|]]; simpl;
      rewrite ?Hfs, ?Hclock; eauto.
  - destruct (handlers e) as [handler|] eqn:Hh; [|left; exact Hfs].
    destruct (handlers_frame _ _ w1 Hh) as [entry ->]. left. exact Hfs.
Qed.

Lemma prepare_writes_at_most_its_output_witness :
  fs (snd (prepare_outpainting_request_with_mask_prompt
             (sample_env (ReplyBody []) (Some good_response) 800 600)
             burger_path (lit "Cheeseburger") (lit "A park") (lit "people")
             (lit "PRECISE") float_7_0 42 sample_world))
  = fs sample_world
  \/ exists written : bytes,
       fs (snd (prepare_outpainting_request_with_mask_prompt
                  (sample_env (ReplyBody []) (Some good_response) 800 600)
                  burger_path (lit "Cheeseburger") (lit "A park")
                  (lit "people") (lit "PRECISE") float_7_0 42 sample_world))
       = <[output_path 42
             (clock sample_world
              + call_seconds
                  (sample_env (ReplyBody []) (Some good_response) 800 600)
                  (request_body
                     (sample_env (ReplyBody []) (Some good_response) 800 600)
                     burger (lit "Cheeseburger") (lit "A park")
                     (lit "people") (lit "PRECISE") float_7_0 42))%Z
           := written]> (fs sample_world).
Proof.
  apply (prepare_writes_at_most_its_output
           (sample_env (ReplyBody []) (Some good_response) 800 600)
           burger_path (lit "Cheeseburger") (lit "A park") (lit "people")
           (lit "PRECISE") float_7_0 42 sample_world burger).
  vm_compute. reflexivity.
Defined.

(** X14. The whole of a successful run: the path is named after the seed and the
    second in which the call came back, the file there holds what the
    imaging library encoded (not the bytes received), and three records
    have been logged. *)
Theorem prepare_success (env : Env) (source_image_path mask_prompt
    positive_prompt negative_prompt outpainting_mode : str)
    (cfg_scale : float) (seed : Z) (w : World) (content raw : bytes)
    (bindings : list (str * json)) (first : str) (rest : list json)
    (ascii image_bytes : bytes) (image : Image) (saved : bytes) :
  fs w !! source_image_path = Some content ->
  let body :=
    request_body env content mask_prompt positive_prompt negative_prompt
      outpainting_mode cfg_scale seed in
  invoke_model env body = ReplyBody raw ->
  json_loads env raw = Some (JDict bindings) ->
  dict_get bindings (lit "images") = JList (JStr first :: rest) ->
  encode_ascii first = Some ascii ->
  base64.b64decode ascii = Some image_bytes ->
  dict_get bindings (lit "error") = JNull ->
  Image_open env image_bytes = Some image ->
  Image_save env image = Saved saved ->
  let path := output_path seed (clock w + call_seconds env body) in
  let w' :=
    snd (prepare_outpainting_request_with_mask_prompt env source_image_path
           mask_prompt positive_prompt negative_prompt outpainting_mode
           cfg_scale seed w) in
  fst (prepare_outpainting_request_with_mask_prompt env source_image_path
         mask_prompt positive_prompt negative_prompt outpainting_mode
         cfg_scale seed w) = Ok (Some path)
  /\ fs w' = <[path := saved]> (fs w)
  /\ log w'
     = log w
       ++ [ (INFO,
             lit "Generating image with Amazon Titan Image Generator G1 model "
               ++ MODEL_ID);
            (INFO,
             lit "Successfully generated image with Amazon Titan Image Generator G1 v2 model "
               ++ MODEL_ID);
            (INFO, lit "Generated image saved to " ++ path) ].
Proof.
  intros Hfile body Hreply Hjson Himages Hascii Hdecode Herror Hopen Hsave
    path w'.
  assert (Hgen : generate_image env body w
                 = (Ok image_bytes, generated env body w)).
  { rewrite (generate_image_decoded env body w raw bindings first rest ascii
               image_bytes) by assumption.
    rewrite Herror. reflexivity. }
  unfold w'.
  rewrite (prepare_after_generate env _ _ _ _ _ _ _ _ _ _ _ _ _ Hfile Hgen
             Hopen Hsave).
  simpl. rewrite <- !app_assoc. done.
Qed.

Lemma prepare_success_witness :
  fst (prepare_outpainting_request_with_mask_prompt
         (sample_env (ReplyBody []) (Some good_response) 800 600)
         burger_path (lit "Cheeseburger") (lit "A park") (lit "people")
         (lit "PRECISE") float_7_0 42 sample_world)
  = Ok (Some (output_path 42 1724112003)).
Proof.
  apply (prepare_success
           (sample_env (ReplyBody []) (Some good_response) 800 600)
           burger_path (lit "Cheeseburger") (lit "A park") (lit "people")
           (lit "PRECISE") float_7_0 42 sample_world burger []
           [(lit "images", JList [JStr (lit "cGxhdGU=")])]
           (lit "cGxhdGU=") [] (list_byte_of_string "cGxhdGU=")
           (list_byte_of_string "plate")
           (mkImage 800 600 (list_byte_of_string "plate"))
           (list_byte_of_string "plate"));
    vm_compute; reflexivity.
Defined.

(** ** The names of the generated files *)

Transparent lit.

Lemma lit_String (c : ascii) (s : string) :
  lit (String c s) = Byte.to_N (byte_of_ascii c) :: lit s.
Proof. reflexivity. Qed.

Lemma lit_inj (s t : string) : lit s = lit t -> s = t.
Proof.
  revert t. induction s as [|c s IH]; intros [|d t] H; try discriminate.
  - reflexivity.
  - rewrite !lit_String in H. injection H as Hc Hs.
    f_equal; [|apply IH, Hs].
    assert (Hb : Some (byte_of_ascii c) = Some (byte_of_ascii d))
      by (rewrite <- !Byte.of_to_N, Hc; reflexivity).
    injection Hb as Hb.
    rewrite <- (ascii_of_byte_of_ascii c), <- (ascii_of_byte_of_ascii d), Hb.
    reflexivity.
Qed.

Opaque lit.

Lemma str_of_int_inj (a b : Z) : str_of_int a = str_of_int b -> a = b.
Proof.
  assert (Hnonnil : forall z, Z.to_int z <> Decimal.Pos Decimal.Nil
                              /\ Z.to_int z <> Decimal.Neg Decimal.Nil).
  { intros [|p|p]; split; simpl; try discriminate;
      intros [= H]; exact (DecimalPos.Unsigned.to_uint_nonnil p H). }
  unfold str_of_int. intros H. apply lit_inj in H.
  apply (f_equal NilZero.int_of_string) in H.
  rewrite !NilZero.isi in H by apply Hnonnil.
  injection H as H. apply DecimalZ.to_int_inj, H.
Qed.

(** The text of a number holds digits and a sign, never an underscore. *)
Lemma str_of_int_no_underscore (z : Z) : Forall (fun c => c <> 95) (str_of_int z).
Proof.
  assert (Huint : forall d,
             Forall (fun c => c <> 95) (lit (NilEmpty.string_of_uint d))).
  { induction d; cbn [NilEmpty.string_of_uint]; rewrite ?lit_String;
      constructor; try assumption; discriminate. }
  assert (Hzero : forall d,
             Forall (fun c => c <> 95) (lit (NilZero.string_of_uint d))).
  { intros d. destruct d; try apply Huint.
    cbn [NilZero.string_of_uint]. rewrite lit_String.
    constructor; [discriminate|constructor]. }
  unfold str_of_int. destruct (Z.to_int z) as [d|d];
    cbn [NilZero.string_of_int]; [apply Hzero|].
  rewrite lit_String. constructor; [discriminate|apply Hzero].
Qed.

(** Two texts cut at the first separator. *)
Lemma app_separator_inj (sep : N) (a a' b b' : str) :
  Forall (fun c => c <> sep) a ->
  Forall (fun c => c <> sep) a' ->
  a ++ sep :: b = a' ++ sep :: b' ->
  a = a' /\ b = b'.
Proof.
  intros Ha. revert a'.
  induction Ha as [|c a Hc _ IH]; intros a' Ha' H; destruct Ha' as [|c' a' Hc' Ha'];
    simpl in H.
  - injection H as H. done.
  - injection H as H _. congruence.
  - injection H as H _. congruence.
  - injection H as -> H. destruct (IH a' Ha' H) as [-> ->]. done.
Qed.

(** X15. Runs that differ in the seed or in the second of the call never name
    the same file. *)
Theorem distinct_runs_distinct_paths (seed1 epoch1 seed2 epoch2 : Z) :
  seed1 <> seed2 \/ epoch1 <> epoch2 ->
  output_path seed1 epoch1 <> output_path seed2 epoch2.
Proof.
  intros Hdiff Heq. unfold output_path in Heq.
  apply app_inv_head in Heq.
  change (lit "_") with [95] in Heq. simpl in Heq.
  apply app_separator_inj in Heq; try apply str_of_int_no_underscore.
  destruct Heq as [Hseed Hepoch].
  apply app_inv_tail in Hepoch.
  apply str_of_int_inj in Hseed. apply str_of_int_inj in Hepoch.
  destruct Hdiff; contradiction.
Qed.

Lemma distinct_runs_distinct_paths_witness :
  output_path 42 1724112003 <> output_path 42 1724112004
  /\ output_path 4 21724112003 <> output_path 42 1724112003.
Proof.
  split; apply distinct_runs_distinct_paths; [right|left]; discriminate.
Defined.

(** X16. Two runs with the same seed whose calls come back in the same second
    name the same file: the second run replaces the file of the first. *)
Theorem same_seed_same_second_overwrites (env : Env) (seed : Z)
    (source1 mask1 positive1 negative1 mode1 : str) (cfg_scale1 : float)
    (source2 mask2 positive2 negative2 mode2 : str) (cfg_scale2 : float)
    (w w1 w2 : World) (path1 path2 : str) :
  prepare_outpainting_request_with_mask_prompt env source1 mask1 positive1
    negative1 mode1 cfg_scale1 seed w = (Ok (Some path1), w1) ->
  prepare_outpainting_request_with_mask_prompt env source2 mask2 positive2
    negative2 mode2 cfg_scale2 seed w1 = (Ok (Some path2), w2) ->
  clock w2 = clock w1 ->
  path2 = path1
  /\ is_Some (fs w1 !! path1)
  /\ exists (image_bytes : bytes) (image : Image) (saved : bytes),
       Image_open env image_bytes = Some image
       /\ Image_save env image = Saved saved
       /\ fs w2 = <[path1 := saved]> (fs w1).
Proof.
  intros Hrun1 Hrun2 Hclock.
  destruct (prepare_returns_path env _ _ _ _ _ _ _ _ _ _ Hrun1)
    as (c1 & b1 & v1 & i1 & s1 & _ & _ & _ & _ & Hp1 & Hw1).
  destruct (prepare_returns_path env _ _ _ _ _ _ _ _ _ _ Hrun2)
    as (c2 & b2 & v2 & i2 & s2 & Hfile2 & Hgen2 & Hopen2 & Hsave2 & Hp2
        & Hw2).
  pose proof (generate_image_frame env
                (request_body env c2 mask2 positive2 negative2 mode2
                   cfg_scale2 seed) w1) as (Hfs & _).
  rewrite Hgen2 in Hfs. simpl in Hfs.
  assert (Hsame : path2 = path1).
  { rewrite Hp1, Hp2. f_equal.
    rewrite Hw2 in Hclock. rewrite Hw1 in Hclock. simpl in Hclock.
    exact Hclock. }
  split; [exact Hsame|]. split.
  - rewrite Hw1. simpl. rewrite lookup_insert_eq. eauto.
  - exists b2, i2, s2. split; [exact Hopen2|]. split; [exact Hsave2|].
    rewrite Hw2. simpl. rewrite Hfs, Hsame. reflexivity.
Qed.

Lemma same_seed_same_second_overwrites_witness :
  output_path 42 1724112000 = output_path 42 1724112000
  /\ is_Some
       (fs (snd (prepare_outpainting_request_with_mask_prompt
                   (instant_env (ReplyBody []) (Some good_response))
                   burger_path (lit "Cheeseburger") (lit "A park")
                   (lit "people") (lit "PRECISE") float_7_0 42 sample_world))
        !! output_path 42 1724112000).
Proof.
  refine (let H :=
            same_seed_same_second_overwrites
           (instant_env (ReplyBody []) (Some good_response)) 42
           burger_path (lit "Cheeseburger") (lit "A park") (lit "people")
           (lit "PRECISE") float_7_0
           burger_path (lit "Plate") (lit "A beach") (lit "people")
           (lit "DEFAULT") float_7_0
           sample_world
           (snd (prepare_outpainting_request_with_mask_prompt
                   (instant_env (ReplyBody []) (Some good_response))
                   burger_path (lit "Cheeseburger") (lit "A park")
                   (lit "people") (lit "PRECISE") float_7_0 42 sample_world))
           (snd (prepare_outpainting_request_with_mask_prompt
                   (instant_env (ReplyBody []) (Some good_response))
                   burger_path (lit "Plate") (lit "A beach") (lit "people")
                   (lit "DEFAULT") float_7_0 42
                   (snd (prepare_outpainting_request_with_mask_prompt
                           (instant_env (ReplyBody []) (Some good_response))
                           burger_path (lit "Cheeseburger") (lit "A park")
                           (lit "people") (lit "PRECISE") float_7_0 42
                           sample_world))))
           (output_path 42 1724112000) (output_path 42 1724112000) _ _ _ in
          conj (proj1 H) (proj1 (proj2 H)));
    vm_compute; reflexivity.
Defined.

(** ** What [main] does *)



(** X18. An upload that does not open as a picture stops the run with
    [UnidentifiedImageError], submitted or not, before the upload is copied
    and before any validation message. *)
Theorem main_upload_not_a_picture (env : Env) (form : Form) (w : World)
    (uploaded : UploadedFile) :
  img form = Some uploaded ->
  Image_open env (getvalue uploaded) = None ->
  main env form w = (Raise UnidentifiedImageError, w).
Proof.
  intros Himg Hopen. unfold main. rewrite Himg, Hopen. run. reflexivity.
Qed.

Lemma main_upload_not_a_picture_witness :
  main (blind_env (ReplyBody []) (Some good_response))
    (sample_form (Some burger_upload)) sample_world
  = (Raise UnidentifiedImageError, sample_world).
Proof.
  apply (main_upload_not_a_picture
           (blind_env (ReplyBody []) (Some good_response))
           (sample_form (Some burger_upload)) sample_world burger_upload
           eq_refl eq_refl).
Defined.


(** X20. A [ClientError] on a valid submission is silent: the run ends
    normally, no error message is put on the page, and the failure is to be
    seen in the log only, which ends with the record of the client error and
    "Failed to get a valid response from the model." *)
Theorem main_handled_failure_is_only_logged (env : Env) (form : Form)
    (w : World) (uploaded : UploadedFile) (image : Image) (message : str) :
  submitted form = true ->
  img form = Some uploaded ->
  Image_open env (getvalue uploaded) = Some image ->
  (height image <= 1408)%Z ->
  (width image <= 1408)%Z ->
  let body :=
    request_body env (getvalue uploaded) (mask_prompt form)
      (positive_prompt form) (negative_prompt form) (outpainting_mode form)
      (cfg_scale form) (seed form) in
  invoke_model env body = ReplyRaises (ClientError message) ->
  let w' := snd (main env form w) in
  fst (main env form w) = Ok tt
  /\ List.filter is_StError (ui w') = List.filter is_StError (ui w)
  /\ log w'
     = log w
       ++ [ (INFO,
             lit "Generating image with Amazon Titan Image Generator G1 model "
               ++ MODEL_ID);
            (ERROR, lit "A client error occurred: " ++ message);
            (ERROR, lit "Failed to get a valid response from the model.") ].
Proof.
  intros Hsubmitted Himg Hopen Hh Hw body Hreply w'. unfold w', main.
  rewrite Himg, Hsubmitted, Hopen. run. simpl.
  apply Z.leb_le in Hh as Hh'. apply Z.leb_le in Hw as Hw'.
  rewrite Hh', Hw'.
  replace ((1408 <? height image)%Z) with false
    by (symmetry; apply Z.ltb_ge; exact Hh).
  replace ((1408 <? width image)%Z) with false
    by (symmetry; apply Z.ltb_ge; exact Hw).
  simpl.
  assert (Hfile : fs (write (lit "./tmp/" ++ name uploaded)
                        (getvalue uploaded) w)
                  !! (lit "./tmp/" ++ name uploaded)
                  = Some (getvalue uploaded))
    by apply lookup_insert_eq.
  rewrite (prepare_unfold env _ _ _ _ _ _ _ _ _ Hfile). fold body.
  rewrite (generate_image_call_raises env body _ _ Hreply).
  simpl. rewrite <- !app_assoc. done.
Qed.

Lemma main_handled_failure_is_only_logged_witness :
  fst (main (sample_env (ReplyRaises (ClientError (lit "Access denied")))
               None 800 600)
         (sample_form (Some burger_upload)) sample_world)
  = Ok tt
  /\ List.filter is_StError
       (ui (snd (main (sample_env
                         (ReplyRaises (ClientError (lit "Access denied")))
                         None 800 600)
                   (sample_form (Some burger_upload)) sample_world)))
     = List.filter is_StError (ui sample_world).
Proof.
  refine (let H :=
            main_handled_failure_is_only_logged
              (sample_env (ReplyRaises (ClientError (lit "Access denied")))
                 None 800 600)
              (sample_form (Some burger_upload)) sample_world burger_upload
              (mkImage 800 600 burger) (lit "Access denied") eq_refl eq_refl
              eq_refl _ _ eq_refl in
          conj (proj1 H) (proj1 (proj2 H))).
  - vm_compute. discriminate.
  - vm_compute. discriminate.
Defined.

(** X21. A valid submission whose generation succeeds ends normally; the
    last things put on the page are the source image, the generated image
    and the line naming the generated file, in this order, with no error
    message before them; the generated file holds what the imaging library
    encoded. *)
Theorem main_shows_the_generated_image_last (env : Env) (form : Form)
    (w : World) (uploaded : UploadedFile) (source : Image) (raw : bytes)
    (bindings : list (str * json)) (first : str) (rest : list json)
    (ascii image_bytes : bytes) (image : Image) (saved : bytes) :
  submitted form = true ->
  img form = Some uploaded ->
  Image_open env (getvalue uploaded) = Some source ->
  (height source <= 1408)%Z ->
  (width source <= 1408)%Z ->
  let body :=
    request_body env (getvalue uploaded) (mask_prompt form)
      (positive_prompt form) (negative_prompt form) (outpainting_mode form)
      (cfg_scale form) (seed form) in
  invoke_model env body = ReplyBody raw ->
  json_loads env raw = Some (JDict bindings) ->
  dict_get bindings (lit "images") = JList (JStr first :: rest) ->
  encode_ascii first = Some ascii ->
  base64.b64decode ascii = Some image_bytes ->
  dict_get bindings (lit "error") = JNull ->
  Image_open env image_bytes = Some image ->
  Image_save env image = Saved saved ->
  let path := output_path (seed form) (clock w + call_seconds env body) in
  let w' := snd (main env form w) in
  fst (main env form w) = Ok tt
  /\ (exists before : list ui_event,
        ui w'
        = before
          ++ [ StImage (lit "./tmp/" ++ name uploaded) (lit "Source Image");
               StImage path (lit "Generated Image");
               StText path ]
        /\ List.filter is_StError before = List.filter is_StError (ui w))
  /\ fs w' !! path = Some saved.
Proof.
  intros Hsubmitted Himg Hsource Hh Hw body Hreply Hjson Himages Hascii
    Hdecode Herror Hopen Hsave path w'. unfold w', main.
  rewrite Himg, Hsubmitted, Hsource. run. simpl.
  apply Z.leb_le in Hh as Hh'. apply Z.leb_le in Hw as Hw'.
  rewrite Hh', Hw'.
  replace ((1408 <? height source)%Z) with false
    by (symmetry; apply Z.ltb_ge; exact Hh).
  replace ((1408 <? width source)%Z) with false
    by (symmetry; apply Z.ltb_ge; exact Hw).
  simpl.
  assert (Hfile : fs (write (lit "./tmp/" ++ name uploaded)
                        (getvalue uploaded) w)
                  !! (lit "./tmp/" ++ name uploaded)
                  = Some (getvalue uploaded))
    by apply lookup_insert_eq.
  assert (Hgen : generate_image env body
                   (write (lit "./tmp/" ++ name uploaded) (getvalue uploaded)
                      w)
                 = (Ok image_bytes,
                    generated env body
                      (write (lit "./tmp/" ++ name uploaded)
                         (getvalue uploaded) w))).
  { rewrite (generate_image_decoded env body _ raw bindings first rest ascii
               image_bytes) by assumption.
    rewrite Herror. reflexivity. }
  rewrite (prepare_after_generate env _ _ _ _ _ _ _ _ _ _ _ _ _ Hfile Hgen
             Hopen Hsave).
  simpl. fold path.
  destruct (output_path_head (seed form) (clock w + call_seconds env body))
    as [tail Hhead].
  fold path in Hhead. rewrite Hhead. unfold display_response. run. simpl.
  rewrite <- !app_assoc. split; [done|]. split.
  - exists (ui w). done.
  - apply lookup_insert_eq.
Qed.

Lemma main_shows_the_generated_image_last_witness :
  fst (main (sample_env (ReplyBody []) (Some good_response) 800 600)
         (sample_form (Some burger_upload)) sample_world)
  = Ok tt
  /\ fs (snd (main (sample_env (ReplyBody []) (Some good_response) 800 600)
                (sample_form (Some burger_upload)) sample_world))
     !! output_path 42 (1724112000 + 3)
     = Some (list_byte_of_string "plate").
Proof.
  refine (let H :=
            main_shows_the_generated_image_last
              (sample_env (ReplyBody []) (Some good_response) 800 600)
              (sample_form (Some burger_upload)) sample_world burger_upload
              (mkImage 800 600 burger) []
              [(lit "images", JList [JStr (lit "cGxhdGU=")])]
              (lit "cGxhdGU=") [] (list_byte_of_string "cGxhdGU=")
              (list_byte_of_string "plate")
              (mkImage 800 600 (list_byte_of_string "plate"))
              (list_byte_of_string "plate") eq_refl eq_refl eq_refl _ _
              eq_refl eq_refl _ _ _ _ eq_refl eq_refl in
          conj (proj1 H) (proj2 (proj2 H)));
    vm_compute; first [reflexivity | discriminate].
Defined.
